(** * Residual U-Net builders of [connectomics/model/unet.py]

    A shallow embedding of the classes [UNet3D] and [UNet2D]: the constructor
    [UNet3D.__init__] as a function into an error monad, the helper methods
    that derive kernel sizes, strides and pooling layers, and [UNet3D.forward]
    as a program that threads the model object and may raise.

    The tensor framework (convolutions, interpolation, tensor addition) and
    the modules [block] and [utils] of the package are not part of the
    sources at hand; what the code uses of them is taken as the operations
    of the class [Framework], over which every definition and theorem is
    generic. *)

From Stdlib Require Import ZArith.
From stdpp Require Import base option list list_numbers strings gmap.

Local Open Scope string_scope.
Local Open Scope list_scope.
Local Open Scope Z_scope.

(** ** Python exceptions and the error monad *)

Inductive exn : Type :=
  | AssertionError
  | TypeError
  | KeyError
  | IndexError
  | AttributeError
  | ValueError
  | RuntimeError.

Inductive res (A : Type) : Type :=
  | Ok (a : A)
  | Raise (e : exn).
Arguments Ok {A} a.
Arguments Raise {A} e.

#[global] Instance res_ret : MRet res := fun A a => Ok a.
#[global] Instance res_bind : MBind res := fun A B f m =>
  match m with
  | Ok a => f a
  | Raise e => Raise e
  end.

#[global] Instance res_fmap : FMap res := fun A B f m =>
  match m with
  | Ok a => Ok (f a)
  | Raise e => Raise e
  end.

(** [assert c] *)
Definition py_assert (c : bool) : res unit :=
  if c then Ok tt else Raise AssertionError.

(** ** Python lists, ranges and dicts *)

Definition py_len {A} (l : list A) : Z := Z.of_nat (length l).

(** The position a subscript [l[i]] denotes: negative subscripts count from
    the end, and a subscript outside [-len, len) denotes none. *)
Definition py_index {A} (l : list A) (i : Z) : option nat :=
  let j := if i <? 0 then py_len l + i else i in
  if (0 <=? j) && (j <? py_len l) then Some (Z.to_nat j) else None.

(** [l[i]] as an expression *)
Definition py_getitem {A} (l : list A) (i : Z) : res A :=
  match py_index l i with
  | Some n => match l !! n with
              | Some a => Ok a
              | None => Raise IndexError
              end
  | None => Raise IndexError
  end.

(** [l[i] = x] *)
Definition py_setitem {A} (l : list A) (i : Z) (x : A) : res (list A) :=
  match py_index l i with
  | Some n => Ok (<[n:=x]> l)
  | None => Raise IndexError
  end.

(** [range(a, b)] *)
Definition py_range (a b : Z) : list Z := seqZ a (b - a).

(** [iter(n)] for an [int] [n], as a [for] clause evaluates it: an [int] is
    not iterable. *)
Definition py_iter_int (n : Z) : res (list Z) := Raise TypeError.

(** [d[k]] for a dict with string keys *)
Definition py_dict_getitem {A} (d : gmap string A) (k : string) : res A :=
  match d !! k with
  | Some a => Ok a
  | None => Raise KeyError
  end.

(** [for x in xs: s = body(x, s)], in any monad. *)
Fixpoint for_ {M : Type -> Type} `{!MBind M, !MRet M} {A S}
    (xs : list A) (body : A -> S -> M S) (s : S) : M S :=
  match xs with
  | [] => mret s
  | x :: xs' => s' ← body x s; for_ xs' body s'
  end.

(** ** Layer descriptions *)

(** A 3-tuple of ints, as kernel sizes and paddings are written. *)
Definition triple : Type := Z * Z * Z.

(** A stride or pooling size: an int or a 3-tuple of ints. *)
Inductive size3 : Type :=
  | Int (n : Z)
  | Tuple (t : triple).

(** The values of [block_dict]; the functions themselves live in [block]. *)
Inductive block_fn : Type :=
  | residual_block_3d
  | residual_se_block_3d.

Record shared_kwargs : Type := SharedKwargs {
  pad_mode : string;
  act_mode : string;
  norm_mode : string
}.

(** The call that built a layer, with its arguments. [stride] is [None]
    where the call does not pass it. *)
Inductive arch : Type :=
  | Conv3dNormAct (in_planes planes : Z) (kernel_size : triple)
      (stride : option size3) (padding : triple) (kw : shared_kwargs)
  | Block (fn : block_fn) (in_planes planes : Z) (kw : shared_kwargs)
  | MaxPool3d (kernel_size stride : size3)
  | Identity.

(** ** The helper methods of [UNet3D] that compute shapes

    None of them reads an attribute of [self] other than [self.pooling],
    which is passed explicitly: at the time [__init__] calls them the object
    is only partly built. *)

Definition _get_kernal_size (is_isotropic : bool) (io_layer : bool)
  : triple * triple :=
  if io_layer then
    if is_isotropic then ((5, 5, 5), (2, 2, 2))
    else ((1, 5, 5), (0, 2, 2))
  else
    if is_isotropic then ((3, 3, 3), (1, 1, 1))
    else ((1, 3, 3), (0, 1, 1)).

Definition _get_downsample (is_isotropic : bool) : size3 :=
  if negb is_isotropic then Tuple (1, 2, 2) else Int 2.

Definition _get_stride (self_pooling : bool) (is_isotropic : bool)
    (previous i : Z) : size3 :=
  if self_pooling || (previous =? i) then Int 1
  else _get_downsample is_isotropic.

(** The layer [_make_pooling_layer] asks for. *)
Definition _make_pooling_layer_arch (self_pooling : bool) (is_isotropic : bool)
    (previous i : Z) : arch :=
  if self_pooling && negb (previous =? i) then
    let kernel_size := _get_downsample is_isotropic in
    let stride := kernel_size in
    MaxPool3d kernel_size stride
  else Identity.

(** [block_dict] of [UNet3D] *)
Definition block_dict : gmap string block_fn :=
  <["residual" := residual_block_3d]>
    (<["residual_se" := residual_se_block_3d]> ∅).

(** The arguments of [UNet3D.__init__]. *)
Module Args.
Record t : Type := Make {
  block_type : string;
  in_channel : Z;
  out_channel : Z;
  filters : list Z;
  is_isotropic : bool;
  isotropy : list bool;
  pad_mode : string;
  act_mode : string;
  norm_mode : string;
  head_depth : Z;
  pooling : bool;
  output_act : string
}.

(** The defaults of the signature. *)
Definition default : t := {|
  block_type := "residual";
  in_channel := 1;
  out_channel := 3;
  filters := [28; 36; 48; 64; 80];
  is_isotropic := false;
  isotropy := [false; false; false; true; true];
  pad_mode := "replicate";
  act_mode := "elu";
  norm_mode := "bn";
  head_depth := 1;
  pooling := false;
  output_act := "sigmoid"
|}.
End Args.

(** ** Model objects

    A layer is the call that built it together with its numeric state
    (weights and buffers, of a type [P] the framework decides). An
    [nn.Sequential] and an [nn.ModuleList] are the lists of their members. *)

Record layer (P : Type) : Type := Layer {
  layer_arch : arch;
  layer_state : P
}.
Arguments Layer {P} _ _.
Arguments layer_arch {P} _.
Arguments layer_state {P} _.

(** The attributes [__init__] assigns to [self]. *)
Record UNet3D (P : Type) : Type := MkUNet3D {
  pooling : bool;
  output_act : string;
  depth : Z;
  conv_in : layer P;
  conv_out : layer P;
  down_layers : list (list (layer P));
  up_layers : list (list (layer P))
}.
Arguments MkUNet3D {P} _ _ _ _ _ _ _.
Arguments pooling {P} _.
Arguments output_act {P} _.
Arguments depth {P} _.
Arguments conv_in {P} _.
Arguments conv_out {P} _.
Arguments down_layers {P} _.
Arguments up_layers {P} _.

(** What of a model is fixed at construction: every attribute, with the
    layers reduced to the calls that built them. *)
Record structure : Type := Structure {
  s_pooling : bool;
  s_output_act : string;
  s_depth : Z;
  s_conv_in : arch;
  s_conv_out : arch;
  s_down_layers : list (list arch);
  s_up_layers : list (list arch)
}.

(** The calls that built the members of a container, in order. *)
Definition stage_arch {P} (ls : list (layer P)) : list arch :=
  layer_arch <$> ls.

Definition structure_of {P} (self : UNet3D P) : structure := {|
  s_pooling := pooling self;
  s_output_act := output_act self;
  s_depth := depth self;
  s_conv_in := layer_arch (conv_in self);
  s_conv_out := layer_arch (conv_out self);
  s_down_layers := stage_arch <$> down_layers self;
  s_up_layers := stage_arch <$> up_layers self
|}.

(** ** The framework and the package modules outside the sources

    - [new_module]: running a layer constructor ([conv3d_norm_act] and the
      block functions of [block], [nn.MaxPool3d], [nn.Identity]) on the
      arguments recorded in an [arch]: it raises or yields the fresh numeric
      state;
    - [model_init]: [utils.model_init], which works on the model in place;
    - [call_module]: applying a layer to a tensor, which may update the
      numeric state of that layer and may raise;
    - [shape], [interpolate], [add]: [Tensor.shape], [F.interpolate] with
      its [size], [mode] and [align_corners] arguments, and [+] on tensors;
    - [get_functional_act]: [utils.get_functional_act]. *)
Class Framework (P T : Type) : Type := {
  new_module : arch -> res P;
  model_init : UNet3D P -> res (UNet3D P);
  call_module : arch -> P -> T -> P * res T;
  shape : T -> list Z;
  interpolate : T -> list Z -> string -> bool -> res T;
  add : T -> T -> res T;
  get_functional_act : string -> res (T -> res T)
}.

Section Construction.
Context {P T : Type} `{!Framework P T}.

Definition make_layer (a : arch) : res (layer P) :=
  p ← new_module a; mret (Layer a p).

Definition conv3d_norm_act (in_planes planes : Z) (kernel_size : triple)
    (stride : option size3) (padding : triple) (kw : shared_kwargs)
  : res (layer P) :=
  make_layer (Conv3dNormAct in_planes planes kernel_size stride padding kw).

Definition call_block (fn : block_fn) (in_planes planes : Z)
    (kw : shared_kwargs) : res (layer P) :=
  make_layer (Block fn in_planes planes kw).

Definition _make_pooling_layer (self_pooling : bool) (is_isotropic : bool)
    (previous i : Z) : res (layer P) :=
  make_layer (_make_pooling_layer_arch self_pooling is_isotropic previous i).

(** The body of the loop over [range(self.depth)] that builds the encoding
    path; [layers] is [self.down_layers] so far. The subscripts the body
    writes more than once are evaluated once, in the place of their first
    evaluation; the arguments of [nn.Sequential] are evaluated left to
    right. *)
Definition encoder_body (self_pooling : bool) (block : block_fn)
    (filters : list Z) (isotropy : list bool) (kw : shared_kwargs)
    (i : Z) (layers : list (list (layer P))) : res (list (list (layer P))) :=
  iso_i ← py_getitem isotropy i;
  let '(kernel_size, padding) := _get_kernal_size iso_i false in
  let previous := Z.max 0 (i - 1) in
  let stride := _get_stride self_pooling iso_i previous i in
  pool ← _make_pooling_layer self_pooling iso_i previous i;
  f_prev ← py_getitem filters previous;
  f_i ← py_getitem filters i;
  conv ← conv3d_norm_act f_prev f_i kernel_size (Some stride) padding kw;
  blk ← call_block block f_i f_i kw;
  mret (layers ++ [[pool; conv; blk]]).

(** The body of the loop over [range(1, self.depth)] that builds the
    decoding path. *)
Definition decoder_body (block : block_fn) (filters : list Z)
    (isotropy : list bool) (kw : shared_kwargs)
    (j : Z) (layers : list (list (layer P))) : res (list (list (layer P))) :=
  iso_j ← py_getitem isotropy j;
  let '(kernel_size, padding) := _get_kernal_size iso_j false in
  f_j ← py_getitem filters j;
  f_prev ← py_getitem filters (j - 1);
  conv ← conv3d_norm_act f_j f_prev kernel_size None padding kw;
  blk ← call_block block f_prev f_prev kw;
  mret (layers ++ [[conv; blk]]).

(** [UNet3D.__init__] after its [assert]. *)
Definition UNet3D_init_body (a : Args.t) : res (UNet3D P) :=
  isotropy ← (if Args.is_isotropic a
              then items ← py_iter_int (py_len (Args.isotropy a));
                   mret ((fun _ => true) <$> items)
              else mret (Args.isotropy a));
  let self_pooling := Args.pooling a in
  let self_output_act := Args.output_act a in
  let self_depth := py_len (Args.filters a) in
  block ← py_dict_getitem block_dict (Args.block_type a);
  let kw := SharedKwargs (Args.pad_mode a) (Args.act_mode a) (Args.norm_mode a) in
  let '(kernel_size_io, padding_io) :=
    _get_kernal_size (Args.is_isotropic a) true in
  f0 ← py_getitem (Args.filters a) 0;
  self_conv_in ← conv3d_norm_act (Args.in_channel a) f0 kernel_size_io None
                   padding_io kw;
  self_conv_out ← conv3d_norm_act f0 (Args.out_channel a) kernel_size_io None
                    padding_io (SharedKwargs (Args.pad_mode a) "none" "none");
  self_down_layers ← for_ (py_range 0 self_depth)
      (encoder_body self_pooling block (Args.filters a) isotropy kw) [];
  self_up_layers ← for_ (py_range 1 self_depth)
      (decoder_body block (Args.filters a) isotropy kw) [];
  model_init (MkUNet3D self_pooling self_output_act self_depth self_conv_in
                self_conv_out self_down_layers self_up_layers).

(** [UNet3D.__init__] *)
Definition UNet3D_init (a : Args.t) : res (UNet3D P) :=
  _ ← py_assert (bool_decide (py_len (Args.filters a) = py_len (Args.isotropy a)));
  UNet3D_init_body a.

End Construction.

(** ** Programs that work on a model object

    [forward] runs on [self]: calling a layer may update the numeric state
    held in the object, and any step may raise. A program takes the object
    and returns it as it is afterwards, with the result or the exception. *)

Definition M (P A : Type) : Type := UNet3D P -> UNet3D P * res A.

#[global] Instance M_ret {P} : MRet (M P) := fun A a self => (self, Ok a).
#[global] Instance M_bind {P} : MBind (M P) := fun A B f m self =>
  let '(self', r) := m self in
  match r with
  | Ok a => f a self'
  | Raise e => (self', Raise e)
  end.

(** Reading an attribute [self.f]. *)
Definition attr {P A} (f : UNet3D P -> A) : M P A :=
  fun self => (self, Ok (f self)).

(** A step that does not touch the object. *)
Definition lift {P A} (r : res A) : M P A :=
  fun self => (self, r).

Definition set_conv_in {P} (l : layer P) (self : UNet3D P) : UNet3D P :=
  MkUNet3D (pooling self) (output_act self) (depth self) l (conv_out self)
    (down_layers self) (up_layers self).

Definition set_conv_out {P} (l : layer P) (self : UNet3D P) : UNet3D P :=
  MkUNet3D (pooling self) (output_act self) (depth self) (conv_in self) l
    (down_layers self) (up_layers self).

Definition set_down_layers {P} (ls : list (list (layer P))) (self : UNet3D P)
  : UNet3D P :=
  MkUNet3D (pooling self) (output_act self) (depth self) (conv_in self)
    (conv_out self) ls (up_layers self).

Definition set_up_layers {P} (ls : list (list (layer P))) (self : UNet3D P)
  : UNet3D P :=
  MkUNet3D (pooling self) (output_act self) (depth self) (conv_in self)
    (conv_out self) (down_layers self) ls.

(** [ls[i](x)] for a container [ls] of callables: the subscript raises
    [IndexError] or selects a member, which is called and keeps, in place,
    the state the call leaves it in. *)
Definition call_item {X T} (call : X -> T -> X * res T) (ls : list X) (i : Z)
    (x : T) : list X * res T :=
  match py_index ls i with
  | Some n =>
      match ls !! n with
      | Some m => let '(m', r) := call m x in (<[n:=m']> ls, r)
      | None => (ls, Raise IndexError)
      end
  | None => (ls, Raise IndexError)
  end.

(** [False if self.pooling else True], the value [_upsample_add] gives
    [align_corners]. *)
Definition align_corners_of (self_pooling : bool) : bool :=
  if self_pooling then false else true.

Section Forward.
Context {P T : Type} `{!Framework P T}.

(** Calling a layer. *)
Definition call_layer (l : layer P) (x : T) : layer P * res T :=
  let '(p, r) := call_module (layer_arch l) (layer_state l) x in
  (Layer (layer_arch l) p, r).

(** Calling an [nn.Sequential]: its members in order, each on the output of
    the one before. *)
Fixpoint call_sequential (ls : list (layer P)) (x : T)
  : list (layer P) * res T :=
  match ls with
  | [] => ([], Ok x)
  | l :: ls' =>
      let '(l', r) := call_layer l x in
      match r with
      | Ok x' => let '(ls'', r') := call_sequential ls' x' in (l' :: ls'', r')
      | Raise e => (l' :: ls', Raise e)
      end
  end.

(** [self.conv_in(x)] *)
Definition call_conv_in (x : T) : M P T := fun self =>
  let '(l, r) := call_layer (conv_in self) x in (set_conv_in l self, r).

(** [self.conv_out(x)] *)
Definition call_conv_out (x : T) : M P T := fun self =>
  let '(l, r) := call_layer (conv_out self) x in (set_conv_out l self, r).

(** [self.down_layers[i](x)] *)
Definition call_down_layer (i : Z) (x : T) : M P T := fun self =>
  let '(ls, r) := call_item call_sequential (down_layers self) i x in
  (set_down_layers ls self, r).

(** [self.up_layers[i][k](x)] *)
Definition call_up_layer (i k : Z) (x : T) : M P T := fun self =>
  let '(ls, r) :=
    call_item (fun ml => call_item call_layer ml k) (up_layers self) i x in
  (set_up_layers ls self, r).

(** [UNet3D._upsample_add]; [y] is an entry of [down_x], a tensor or
    [None] (on which [y.shape] raises). *)
Definition _upsample_add (x : T) (y : option T) : M P T :=
  self_pooling ← attr pooling;
  let align_corners := align_corners_of self_pooling in
  match y with
  | Some t =>
      x ← lift (interpolate x (drop 2 (shape t)) "trilinear" align_corners);
      lift (add x t)
  | None => lift (Raise AttributeError)
  end.

(** The body of the first loop of [forward]. *)
Definition forward_down_body (i : Z) (s : T * list (option T))
  : M P (T * list (option T)) :=
  let '(x, down_x) := s in
  x ← call_down_layer i x;
  down_x ← lift (py_setitem down_x i (Some x));
  mret (x, down_x).

(** The body of the second loop of [forward]. *)
Definition forward_up_body (down_x : list (option T)) (j : Z) (x : T)
  : M P T :=
  self_depth ← attr depth;
  let i := self_depth - 2 - j in
  x ← call_up_layer i 0 x;
  y ← lift (py_getitem down_x i);
  x ← _upsample_add x y;
  call_up_layer i 1 x.

(** [UNet3D.forward] *)
Definition forward (x : T) : M P T :=
  x ← call_conv_in x;
  self_depth ← attr depth;
  let down_x := replicate (Z.to_nat (self_depth - 1)) None in
  self_depth ← attr depth;
  '(x, down_x) ← for_ (py_range 0 (self_depth - 1)) forward_down_body
                   (x, down_x);
  x ← call_down_layer (-1) x;
  self_depth ← attr depth;
  x ← for_ (py_range 0 (self_depth - 1)) (forward_up_body down_x) x;
  x ← call_conv_out x;
  self_output_act ← attr output_act;
  act ← lift (get_functional_act self_output_act);
  lift (act x).

(** The composition the specification gives for [forward] on a model of
    depth [d], written from its words and not from the code: [conv_in]; the
    encoder stages [0 .. d-1] in ascending order, keeping their outputs
    (those of stages [0 .. d-2] are used); for [i] from [d-2] down to [0]
    the decoder convolution [up_layers[i][0]], the upsample-and-add with the
    kept output of encoder stage [i], and the decoder block
    [up_layers[i][1]]; [conv_out]; the activation [output_act] names. *)

(** Encoder stage [i], its output appended to the outputs kept. *)
Definition encoder_stage (i : Z) (s : T * list T) : M P (T * list T) :=
  let '(x, outs) := s in
  x ← call_down_layer i x;
  mret (x, outs ++ [x]).

(** Decoder stage [i] on the kept outputs [outs]. *)
Definition decoder_stage (outs : list T) (i : Z) (x : T) : M P T :=
  x ← call_up_layer i 0 x;
  x ← _upsample_add x (outs !! Z.to_nat i);
  call_up_layer i 1 x.

Definition forward_composition (d : Z) (x : T) : M P T :=
  x ← call_conv_in x;
  '(x, outs) ← for_ (seqZ 0 d) encoder_stage (x, []);
  x ← for_ (reverse (seqZ 0 (d - 1))) (decoder_stage outs) x;
  x ← call_conv_out x;
  self_output_act ← attr output_act;
  act ← lift (get_functional_act self_output_act);
  lift (act x).

End Forward.

(** ** [UNet2D]

    The class body holds [block_dict] and an [__init__] that takes no
    argument besides [self] and whose body is [pass]. *)

(** Argument values, as far as the documented options need them. *)
Inductive pyval : Type :=
  | PyStr (s : string)
  | PyInt (n : Z)
  | PyBool (b : bool)
  | PyIntList (l : list Z).

(** Binding the arguments of a call to a signature with the parameters
    [params] after [self], none of them with a default left unbound, and no
    variadic parameter: more positional arguments than parameters, or a
    keyword that names no parameter, is a [TypeError]. *)
Definition bind_arguments (params : list string) (args : list pyval)
    (kwargs : list (string * pyval)) : res (list (string * pyval)) :=
  if bool_decide (length args ≤ length params)%nat
     && forallb (fun kv => bool_decide (kv.1 ∈ params)) kwargs
  then Ok (zip params args ++ kwargs)
  else Raise TypeError.

(** The names the class body of [UNet2D] defines. *)
Definition UNet2D_class_body : list string := ["block_dict"; "__init__"].

(** The parameters of [UNet2D.__init__] after [self]. *)
Definition UNet2D_init_params : list string := [].

(** A call of the class [UNet2D] with positional and keyword arguments:
    the attributes of the instance after [__init__]. *)
Definition UNet2D_init (args : list pyval) (kwargs : list (string * pyval))
  : res (gmap string pyval) :=
  _ ← bind_arguments UNet2D_init_params args kwargs;
  mret ∅.

(** ** A framework to run the model on

    Tensors are their shapes, the numeric state of a layer is the number of
    times it has been called, and layers act on shapes as convolutions and
    poolings do; a layer given the wrong number of channels raises. *)
Module Demo.

Definition stride_triple (s : option size3) : triple :=
  match s with
  | None => (1, 1, 1)
  | Some (Int n) => (n, n, n)
  | Some (Tuple t) => t
  end.

(** Output extent of a window of size [k] moved by [s] over [n + 2 * p]. *)
Definition out_size (n k s p : Z) : Z := (n + 2 * p - k) `div` s + 1.

Definition window (x : list Z) (c : Z) (k s p : triple) : res (list Z) :=
  match x with
  | [n; _; d; h; w] =>
      Ok [n; c; out_size d k.1.1 s.1.1 p.1.1; out_size h k.1.2 s.1.2 p.1.2;
          out_size w k.2 s.2 p.2]
  | _ => Raise RuntimeError
  end.

Definition channels (x : list Z) : Z := default 0 (x !! 1%nat).

Definition run (a : arch) (x : list Z) : res (list Z) :=
  match a with
  | Conv3dNormAct i o k s p _ =>
      if bool_decide (channels x = i) then window x o k (stride_triple s) p
      else Raise RuntimeError
  | Block _ i o _ =>
      if bool_decide (channels x = i)
      then window x o (1, 1, 1) (1, 1, 1) (0, 0, 0)
      else Raise RuntimeError
  | MaxPool3d k s =>
      window x (channels x) (stride_triple (Some k)) (stride_triple (Some s))
        (0, 0, 0)
  | Identity => Ok x
  end.

#[global] Instance framework : Framework nat (list Z) := {|
  new_module := fun _ => Ok 0%nat;
  model_init := fun m => Ok m;
  call_module := fun a p x => (S p, run a x);
  shape := fun x => x;
  interpolate := fun x size _ _ =>
    if bool_decide (length x = 5%nat ∧ length size = 3%nat)
    then Ok (take 2 x ++ size) else Raise ValueError;
  add := fun x y => if bool_decide (x = y) then Ok x else Raise RuntimeError;
  get_functional_act := fun _ => Ok (fun x => Ok x)
|}.

(** The defaults with [pooling=True] and [block_type='residual_se']. *)
Definition args_pooling : Args.t :=
  Args.Make "residual_se" 1 3 [28; 36; 48; 64; 80] false
    [false; false; false; true; true] "replicate" "elu" "bn" 1 true "sigmoid".

(** The defaults with [is_isotropic=True]. *)
Definition args_isotropic : Args.t :=
  Args.Make "residual" 1 3 [28; 36; 48; 64; 80] true
    [false; false; false; true; true] "replicate" "elu" "bn" 1 false "sigmoid".

(** The lists differ in length. *)
Definition args_unequal : Args.t :=
  Args.Make "residual" 1 3 [28; 36; 48] false [false; true] "replicate"
    "elu" "bn" 1 false "sigmoid".

Definition no_net : UNet3D nat :=
  MkUNet3D false "" 0 (Layer Identity 0%nat) (Layer Identity 0%nat) [] [].

(** The model the constructor returns, [no_net] where it raises. *)
Definition build (a : Args.t) : UNet3D nat :=
  match UNet3D_init a with
  | Ok m => m
  | Raise _ => no_net
  end.

Definition net : UNet3D nat := build Args.default.
Definition net_pooling : UNet3D nat := build args_pooling.

(** A volume of 9 sections of 65 by 65 pixels, one channel. *)
Definition volume : list Z := [1; 1; 9; 65; 65].

End Demo.

(** ** What the claims say of a model

    The assumption on [utils.model_init] under which a model can be
    described from the arguments of its constructor: it initialises weights,
    so it leaves the attributes and the layers' descriptions alone. *)
Definition model_init_keeps_structure {P T} `{!Framework P T} : Prop :=
  forall m m' : UNet3D P, model_init m = Ok m' -> structure_of m' = structure_of m.

(** The assumption on [F.interpolate]: the spatial axes of the result, the
    axes after batch and channel, have the [size] asked for. *)
Definition interpolate_to_size {P T} `{!Framework P T} : Prop :=
  forall (x x' : T) size mode align_corners,
    interpolate x size mode align_corners = Ok x' ->
    drop 2 (shape x') = size.

(** Encoder stage [i] as the claims describe it: pooling layer or identity,
    [conv3d_norm_act] from [filters[max(0,i-1)]] to [filters[i]] channels,
    block on [filters[i]] channels. *)
Definition encoder_stage_built (self_pooling : bool) (block : block_fn)
    (filters : list Z) (isotropy : list bool) (kw : shared_kwargs)
    (i : Z) (stage : list arch) : Prop :=
  exists iso_i f_prev f_i,
    py_getitem isotropy i = Ok iso_i /\
    py_getitem filters (Z.max 0 (i - 1)) = Ok f_prev /\
    py_getitem filters i = Ok f_i /\
    stage =
      [ _make_pooling_layer_arch self_pooling iso_i (Z.max 0 (i - 1)) i;
        Conv3dNormAct f_prev f_i (_get_kernal_size iso_i false).1
          (Some (_get_stride self_pooling iso_i (Z.max 0 (i - 1)) i))
          (_get_kernal_size iso_i false).2 kw;
        Block block f_i f_i kw ].

(** Decoder stage [j-1]: [conv3d_norm_act] from [filters[j]] to
    [filters[j-1]] channels, block on [filters[j-1]] channels. *)
Definition decoder_stage_built (block : block_fn) (filters : list Z)
    (isotropy : list bool) (kw : shared_kwargs) (j : Z) (stage : list arch)
  : Prop :=
  exists iso_j f_j f_prev,
    py_getitem isotropy j = Ok iso_j /\
    py_getitem filters j = Ok f_j /\
    py_getitem filters (j - 1) = Ok f_prev /\
    stage =
      [ Conv3dNormAct f_j f_prev (_get_kernal_size iso_j false).1 None
          (_get_kernal_size iso_j false).2 kw;
        Block block f_prev f_prev kw ].

(** A program that leaves the structure of the model as it found it. *)
Definition keeps_structure {P A} (m : M P A) : Prop :=
  forall self, structure_of (m self).1 = structure_of self.

(** How an encoder stage downsamples: its first layer and the stride its
    convolution was given. *)
Definition stage_downsampling (stage : list arch) : option (arch * option size3) :=
  match stage with
  | [first; Conv3dNormAct _ _ _ stride _ _; _] => Some (first, stride)
  | _ => None
  end.

(** A model as [__init__] leaves it for the arguments [a]. *)
Definition built {P} (a : Args.t) (self : UNet3D P) : Prop :=
  Args.is_isotropic a = false /\
  length (Args.filters a) = length (Args.isotropy a) /\
  exists block f0,
    let kw := SharedKwargs (Args.pad_mode a) (Args.act_mode a)
                (Args.norm_mode a) in
    block_dict !! Args.block_type a = Some block /\
    Args.filters a !! 0%nat = Some f0 /\
    pooling self = Args.pooling a /\
    output_act self = Args.output_act a /\
    depth self = py_len (Args.filters a) /\
    layer_arch (conv_in self) =
      Conv3dNormAct (Args.in_channel a) f0 (1, 5, 5) None (0, 2, 2) kw /\
    layer_arch (conv_out self) =
      Conv3dNormAct f0 (Args.out_channel a) (1, 5, 5) None (0, 2, 2)
        (SharedKwargs (Args.pad_mode a) "none" "none") /\
    Forall2 (encoder_stage_built (Args.pooling a) block (Args.filters a)
               (Args.isotropy a) kw)
      (py_range 0 (py_len (Args.filters a)))
      (stage_arch <$> down_layers self) /\
    Forall2 (decoder_stage_built block (Args.filters a) (Args.isotropy a) kw)
      (py_range 1 (py_len (Args.filters a)))
      (stage_arch <$> up_layers self).

(** ** Channels

    What a layer asks of the number of channels of its input and what it
    gives: [conv3d_norm_act] and the blocks are called with the channels
    they take and the channels they return; poolings and the identity keep
    the channels they get. *)
Definition arch_in (a : arch) : option Z :=
  match a with
  | Conv3dNormAct i _ _ _ _ _ => Some i
  | Block _ i _ _ => Some i
  | MaxPool3d _ _ => None
  | Identity => None
  end.

Definition arch_out (a : arch) (c : Z) : Z :=
  match a with
  | Conv3dNormAct _ o _ _ _ _ => o
  | Block _ _ o _ => o
  | MaxPool3d _ _ => c
  | Identity => c
  end.

Definition arch_accepts (a : arch) (c : Z) : Prop :=
  match arch_in a with
  | Some i => c = i
  | None => True
  end.

(** A framework whose operations do on channels what their arguments say,
    for a reading [chan x c] of "tensor [x] has [c] channels": a layer given
    the channels it takes returns a tensor with the channels it gives,
    interpolation keeps the channels, addition of two tensors of [c]
    channels returns one of [c] channels, and the output activation keeps
    the channels. *)
Definition layers_respect_channels {P T} `{!Framework P T}
    (chan : T -> Z -> Prop) : Prop :=
  forall (a : arch) (p : P) (x : T) c,
    chan x c -> arch_accepts a c ->
    exists y, (call_module a p x).2 = Ok y /\ chan y (arch_out a c).

Definition interpolate_respects_channels {P T} `{!Framework P T}
    (chan : T -> Z -> Prop) : Prop :=
  forall (x : T) c size mode align_corners,
    chan x c ->
    exists y, interpolate x size mode align_corners = Ok y /\ chan y c.

Definition add_respects_channels {P T} `{!Framework P T}
    (chan : T -> Z -> Prop) : Prop :=
  forall (x y : T) c,
    chan x c -> chan y c -> exists z, add x y = Ok z /\ chan z c.

Definition act_respects_channels {P T} `{!Framework P T}
    (chan : T -> Z -> Prop) (name : string) : Prop :=
  exists act, get_functional_act name = Ok act /\
    forall (x : T) c, chan x c -> exists y, act x = Ok y /\ chan y c.

(** The program [m], run on a model built for [a], returns a value that
    satisfies [Q] and leaves a model built for [a]. *)
Definition returns_with {P A} (a : Args.t) (m : M P A) (s : UNet3D P)
    (Q : A -> Prop) : Prop :=
  exists s' y, m s = (s', Ok y) /\ built a s' /\ Q y.

(** The model after [forward] has been called on the inputs [xs] in turn,
    whatever each call returned or raised. *)
Definition after_forwards {P T} `{!Framework P T} (xs : list T)
    (self : UNet3D P) : UNet3D P :=
  foldl (fun s x => (forward x s).1) self xs.

(** A framework that follows channels only: a tensor is its number of
    channels, layers have no numeric state, a layer given another number of
    channels than it takes raises, and so does the addition of tensors that
    differ in channels. *)
Module Channels.

Definition run (a : arch) (c : Z) : res Z :=
  match arch_in a with
  | Some i => if bool_decide (c = i) then Ok (arch_out a c)
              else Raise RuntimeError
  | None => Ok (arch_out a c)
  end.

#[global] Instance framework : Framework unit Z := {|
  new_module := fun _ => Ok tt;
  model_init := fun m => Ok m;
  call_module := fun a p c => (p, run a c);
  shape := fun c => [1; c];
  interpolate := fun c _ _ _ => Ok c;
  add := fun x y => if bool_decide (x = y) then Ok x else Raise RuntimeError;
  get_functional_act := fun _ => Ok (fun c => Ok c)
|}.

Definition chan (x c : Z) : Prop := x = c.

(** Three stages, the last one isotropic, two channels in and five out. *)
Definition args : Args.t :=
  Args.Make "residual_se" 2 5 [8; 16; 32] false [false; false; true]
    "zeros" "relu" "gn" 1 true "softmax".

(** One stage only. *)
Definition args_one : Args.t :=
  Args.Make "residual" 2 5 [8] false [true] "zeros" "relu" "gn" 1 false
    "none".

(** No stage. *)
Definition args_none : Args.t :=
  Args.Make "residual" 2 5 [] false [] "zeros" "relu" "gn" 1 false "none".

(** A block type [block_dict] does not hold. *)
Definition args_plain : Args.t :=
  Args.Make "plain" 2 5 [8; 16; 32] false [false; false; true]
    "zeros" "relu" "gn" 1 true "softmax".

Definition no_net : UNet3D unit :=
  MkUNet3D false "" 0 (Layer Identity tt) (Layer Identity tt) [] [].

Definition build (a : Args.t) : UNet3D unit :=
  match UNet3D_init a with
  | Ok m => m
  | Raise _ => no_net
  end.

Definition net : UNet3D unit := build args.
Definition net_one : UNet3D unit := build args_one.

End Channels.

(** * Properties *)

(** ** The error monad and Python subscripts *)

Lemma res_bind_Ok {A B} (m : res A) (f : A -> res B) b :
  m ≫= f = Ok b <-> exists a, m = Ok a /\ f a = Ok b.
Proof.
  destruct m as [a|e]; simpl; split.
  - intros H. exists a. done.
  - intros (a' & [= ->] & H). done.
  - intros [=].
  - intros (a' & [=] & _).
Qed.

Lemma res_bind_ret {A B} (a : A) (f : A -> res B) : Ok a ≫= f = f a.
Proof. done. Qed.

(** The next layer constructor in the goal returns. *)
Ltac layer_returns Hmake :=
  match goal with
  | |- context [make_layer ?ar] =>
      let l := fresh "l" in
      destruct (Hmake ar) as [l ->]; rewrite res_bind_ret
  end.

Lemma py_assert_Ok c : py_assert c = Ok tt <-> c = true.
Proof. destruct c; simpl; split; congruence. Qed.

Lemma py_index_nonneg {A} (l : list A) i :
  0 <= i < py_len l -> py_index l i = Some (Z.to_nat i).
Proof.
  intros [H0 H1]. unfold py_index.
  destruct (Z.ltb_spec i 0); [lia|].
  destruct (Z.leb_spec 0 i); [|lia].
  destruct (Z.ltb_spec i (py_len l)); [done|lia].
Qed.

Lemma py_index_Some {A} (l : list A) i n :
  py_index l i = Some n -> (n < length l)%nat.
Proof.
  unfold py_index. destruct (_ && _) eqn:E; [|done]. intros [= <-].
  apply andb_true_iff in E as [E1 E2].
  apply Z.leb_le in E1. apply Z.ltb_lt in E2. unfold py_len in *.
  destruct (i <? 0); lia.
Qed.

Lemma py_index_out {A} (l : list A) i :
  0 <= i -> py_len l <= i -> py_index l i = None.
Proof.
  intros H0 H1. unfold py_index.
  destruct (Z.ltb_spec i 0); [lia|].
  destruct (Z.leb_spec 0 i); [|lia].
  destruct (Z.ltb_spec i (py_len l)); [lia|done].
Qed.

Lemma py_getitem_Ok {A} (l : list A) i a :
  0 <= i -> py_getitem l i = Ok a <-> l !! Z.to_nat i = Some a.
Proof.
  intros H0. unfold py_getitem.
  destruct (Z.lt_ge_cases i (py_len l)) as [Hlt|Hge].
  - rewrite py_index_nonneg by lia.
    destruct (l !! Z.to_nat i); split; congruence.
  - rewrite py_index_out by lia. split; [done|].
    intros Hl. apply lookup_lt_Some in Hl. unfold py_len in Hge. lia.
Qed.

Lemma py_getitem_in_range {A} (l : list A) i :
  0 <= i < py_len l -> exists a, py_getitem l i = Ok a.
Proof.
  intros Hi. destruct (lookup_lt_is_Some_2 l (Z.to_nat i)) as [a Ha].
  { unfold py_len in Hi. lia. }
  exists a. apply py_getitem_Ok; [lia|done].
Qed.

(** ** C7: kernel sizes and downsampling factors *)

(** C7: for an anisotropic stage the kernel has depth extent 1 and depth
    padding 0, (1,3,3) with (0,1,1) inside the network and (1,5,5) with
    (0,2,2) for the input and output layers, and the downsampling factor is
    (1,2,2), which halves the in-plane axes only; for an isotropic stage the
    three axes are treated alike: (3,3,3) with (1,1,1), (5,5,5) with (2,2,2)
    for the input and output layers, and the single factor 2. *)
Theorem kernel_and_downsample_by_isotropy :
  _get_kernal_size false false = ((1, 3, 3), (0, 1, 1)) /\
  _get_kernal_size false true = ((1, 5, 5), (0, 2, 2)) /\
  _get_downsample false = Tuple (1, 2, 2) /\
  _get_kernal_size true false = ((3, 3, 3), (1, 1, 1)) /\
  _get_kernal_size true true = ((5, 5, 5), (2, 2, 2)) /\
  _get_downsample true = Int 2.
Proof. repeat split. Qed.

(** ** [UNet2D] *)

Lemma bind_arguments_no_params args kwargs :
  bind_arguments [] args kwargs =
    match args, kwargs with
    | [], [] => Ok []
    | _, _ => Raise TypeError
    end.
Proof.
  unfold bind_arguments. destruct args as [|v args].
  - destruct kwargs as [|[k v] kwargs]; [done|].
    cbn [forallb fst]. rewrite (bool_decide_eq_false_2 (k ∈ [])).
    + by rewrite andb_false_r.
    + apply not_elem_of_nil.
  - rewrite bool_decide_eq_false_2; [done|]. simpl. lia.
Qed.

(** C2: [UNet2D.__init__] takes no configuration option and builds nothing:
    a call with any argument raises [TypeError], the call without arguments
    returns an instance without attributes, hence without encoder or decoder
    stage lists, and the class body defines no [forward]. *)
Theorem UNet2D_init_is_a_stub :
  (forall args kwargs, args <> [] \/ kwargs <> [] ->
     UNet2D_init args kwargs = Raise TypeError) /\
  UNet2D_init [] [("block_type", PyStr "residual");
                  ("filters", PyIntList [28; 36; 48; 64; 80])]
    = Raise TypeError /\
  UNet2D_init [] [] = Ok ∅ /\
  "forward" ∉ UNet2D_class_body.
Proof.
  assert (Hany : forall args kwargs, args <> [] \/ kwargs <> [] ->
            UNet2D_init args kwargs = Raise TypeError).
  { intros args kwargs H. unfold UNet2D_init, UNet2D_init_params.
    rewrite bind_arguments_no_params.
    destruct args as [|v args], kwargs as [|kv kwargs]; try reflexivity.
    exfalso. destruct H as [H|H]; apply H; reflexivity. }
  split; [exact Hany|]. split; [apply Hany; right; done|].
  split; [done|].
  unfold UNet2D_class_body. rewrite !elem_of_cons, elem_of_nil.
  intros [H|[H|H]]; done.
Qed.

Section Properties.
Context {P T : Type} `{!Framework P T}.

(** ** Construction *)

Lemma make_layer_Ok a l : make_layer a = Ok l -> layer_arch l = a.
Proof.
  unfold make_layer. intros H. apply res_bind_Ok in H as (p & _ & [= <-]).
  done.
Qed.

(** A loop that appends one item per round builds the list of the items. *)
Lemma for_append {A X} (Q : A -> X -> Prop)
    (body : A -> list X -> res (list X)) (xs : list A) :
  (forall i acc acc', i ∈ xs -> body i acc = Ok acc' ->
     exists st, acc' = acc ++ [st] /\ Q i st) ->
  forall acc l, for_ xs body acc = Ok l ->
    exists ys, l = acc ++ ys /\ Forall2 Q xs ys.
Proof.
  induction xs as [|x xs IH]; intros Hbody acc l H; simpl in H.
  - injection H as <-. exists []. by rewrite app_nil_r.
  - apply res_bind_Ok in H as (acc' & Hx & H).
    apply Hbody in Hx as (st & -> & Hst); [|left].
    apply IH in H as (ys & -> & Hys).
    + exists (st :: ys). rewrite <- app_assoc. split; [done|]. by constructor.
    + intros i acc0 acc0' Hi. apply Hbody. by right.
Qed.

Lemma encoder_body_Ok self_pooling block filters isotropy kw i layers layers' :
  encoder_body self_pooling block filters isotropy kw i layers = Ok layers' ->
  exists stage, layers' = layers ++ [stage] /\
    encoder_stage_built self_pooling block filters isotropy kw i
      (stage_arch stage).
Proof.
  unfold encoder_body. intros H.
  apply res_bind_Ok in H as (iso_i & Hiso & H).
  revert H.
  destruct (_get_kernal_size iso_i false) as [kernel_size padding] eqn:Hk.
  intros H.
  apply res_bind_Ok in H as (pool & Hpool & H).
  apply res_bind_Ok in H as (f_prev & Hprev & H).
  apply res_bind_Ok in H as (f_i & Hi & H).
  apply res_bind_Ok in H as (conv & Hconv & H).
  apply res_bind_Ok in H as (blk & Hblk & [= <-]).
  exists [pool; conv; blk]. split; [done|].
  exists iso_i, f_prev, f_i. repeat split; try done.
  apply make_layer_Ok in Hpool, Hconv, Hblk.
  rewrite Hk. unfold stage_arch. cbn [fmap list_fmap fst snd].
  rewrite Hpool, Hconv, Hblk. done.
Qed.

Lemma decoder_body_Ok block filters isotropy kw j layers layers' :
  decoder_body block filters isotropy kw j layers = Ok layers' ->
  exists stage, layers' = layers ++ [stage] /\
    decoder_stage_built block filters isotropy kw j (stage_arch stage).
Proof.
  unfold decoder_body. intros H.
  apply res_bind_Ok in H as (iso_j & Hiso & H).
  revert H.
  destruct (_get_kernal_size iso_j false) as [kernel_size padding] eqn:Hk.
  intros H.
  apply res_bind_Ok in H as (f_j & Hj & H).
  apply res_bind_Ok in H as (f_prev & Hprev & H).
  apply res_bind_Ok in H as (conv & Hconv & H).
  apply res_bind_Ok in H as (blk & Hblk & [= <-]).
  exists [conv; blk]. split; [done|].
  exists iso_j, f_j, f_prev. repeat split; try done.
  apply make_layer_Ok in Hconv, Hblk.
  rewrite Hk. unfold stage_arch. cbn [fmap list_fmap fst snd].
  rewrite Hconv, Hblk. done.
Qed.

(** What [__init__] returns is built as its body says. *)
Lemma UNet3D_init_built (a : Args.t) (self : UNet3D P) :
  model_init_keeps_structure ->
  UNet3D_init a = Ok self -> built a self.
Proof.
  intros Hinit H. unfold UNet3D_init in H.
  apply res_bind_Ok in H as ([] & Hassert & H).
  apply py_assert_Ok, bool_decide_eq_true_1 in Hassert.
  unfold UNet3D_init_body in H.
  destruct (Args.is_isotropic a) eqn:Hflag; [done|]. simpl in H.
  apply res_bind_Ok in H as (block & Hblock & H).
  apply res_bind_Ok in H as (f0 & Hf0 & H).
  apply res_bind_Ok in H as (cin & Hcin & H).
  apply res_bind_Ok in H as (cout & Hcout & H).
  apply res_bind_Ok in H as (downs & Hdowns & H).
  apply res_bind_Ok in H as (ups & Hups & H).
  apply Hinit in H. apply (f_equal s_pooling) in H as Hp.
  apply (f_equal s_output_act) in H as Ho.
  apply (f_equal s_depth) in H as Hd.
  apply (f_equal s_conv_in) in H as Hci.
  apply (f_equal s_conv_out) in H as Hco.
  apply (f_equal s_down_layers) in H as Hdl.
  apply (f_equal s_up_layers) in H as Hul.
  simpl in Hp, Ho, Hd, Hci, Hco, Hdl, Hul.
  apply make_layer_Ok in Hcin, Hcout.
  split; [done|]. split; [unfold py_len in Hassert; lia|].
  exists block, f0. simpl.
  unfold py_dict_getitem in Hblock.
  destruct (block_dict !! Args.block_type a) as [b|] eqn:Hb; [|done].
  injection Hblock as ->.
  apply py_getitem_Ok in Hf0; [|done].
  destruct (for_append
              (fun i st => encoder_stage_built _ _ _ _ _ i (stage_arch st))
              _ _ (fun i acc acc' _ => encoder_body_Ok _ _ _ _ _ i acc acc')
              _ _ Hdowns) as (ds & Eds & Hds).
  destruct (for_append
              (fun j st => decoder_stage_built _ _ _ _ j (stage_arch st))
              _ _ (fun j acc acc' _ => decoder_body_Ok _ _ _ _ j acc acc')
              _ _ Hups) as (us & Eus & Hus).
  simpl in Eds, Eus. subst downs ups.
  repeat split; try done; try congruence.
  - rewrite Hdl. by apply Forall2_fmap_r.
  - rewrite Hul. by apply Forall2_fmap_r.
Qed.

Lemma built_nonempty (a : Args.t) (self : UNet3D P) :
  built a self -> 1 <= py_len (Args.filters a).
Proof.
  intros (_ & _ & block & f0 & _ & Hf0 & _).
  apply lookup_lt_Some in Hf0. unfold py_len. lia.
Qed.

Lemma built_down_layers (a : Args.t) (self : UNet3D P) i :
  built a self -> 0 <= i < py_len (Args.filters a) ->
  exists stage block,
    py_getitem (down_layers self) i = Ok stage /\
    block_dict !! Args.block_type a = Some block /\
    encoder_stage_built (Args.pooling a) block (Args.filters a)
      (Args.isotropy a)
      (SharedKwargs (Args.pad_mode a) (Args.act_mode a) (Args.norm_mode a))
      i (stage_arch stage).
Proof.
  intros (_ & _ & block & f0 & Hb & _ & _ & _ & _ & _ & _ & Hdown & _) Hi.
  simpl in Hdown. unfold py_range in Hdown.
  destruct (Forall2_lookup_l _ _ _ (Z.to_nat i) i Hdown) as (sa & Hsa & Hst).
  { rewrite lookup_seqZ_lt by lia. f_equal. lia. }
  rewrite list_lookup_fmap in Hsa.
  apply fmap_Some in Hsa as (stage & Hstage & ->).
  exists stage, block. split; [|done].
  apply py_getitem_Ok; [lia|done].
Qed.

Lemma built_up_layers (a : Args.t) (self : UNet3D P) j :
  built a self -> 1 <= j < py_len (Args.filters a) ->
  exists stage block,
    py_getitem (up_layers self) (j - 1) = Ok stage /\
    block_dict !! Args.block_type a = Some block /\
    decoder_stage_built block (Args.filters a) (Args.isotropy a)
      (SharedKwargs (Args.pad_mode a) (Args.act_mode a) (Args.norm_mode a))
      j (stage_arch stage).
Proof.
  intros (_ & _ & block & f0 & Hb & _ & _ & _ & _ & _ & _ & _ & Hup) Hj.
  simpl in Hup. unfold py_range in Hup.
  destruct (Forall2_lookup_l _ _ _ (Z.to_nat (j - 1)) j Hup)
    as (sa & Hsa & Hst).
  { rewrite lookup_seqZ_lt by lia. f_equal. lia. }
  rewrite list_lookup_fmap in Hsa.
  apply fmap_Some in Hsa as (stage & Hstage & ->).
  exists stage, block. split; [|done].
  apply py_getitem_Ok; [lia|done].
Qed.

Lemma built_lengths (a : Args.t) (self : UNet3D P) :
  built a self ->
  length (down_layers self) = length (Args.filters a) /\
  length (up_layers self) = (length (Args.filters a) - 1)%nat /\
  depth self = Z.of_nat (length (Args.filters a)).
Proof.
  intros (_ & _ & block & f0 & _ & _ & _ & _ & Hd & _ & _ & Hdown & Hup).
  simpl in Hdown, Hup.
  apply Forall2_length in Hdown, Hup.
  unfold py_range in Hdown, Hup.
  rewrite length_seqZ, length_fmap in Hdown, Hup.
  unfold py_len in *. repeat split; [lia | lia | done].
Qed.

(** ** C4, C6: the encoding path *)

(** C4: after construction [down_layers] holds exactly [len(filters)] stages
    in order, and stage [i] is the sequence of a pooling layer or identity,
    [conv3d_norm_act] from [filters[max(0,i-1)]] to [filters[i]] channels
    and the block on [filters[i]] channels; in stage 0 the first layer is
    the identity and the convolution has stride 1. *)
Theorem down_layers_built (a : Args.t) (self : UNet3D P) :
  model_init_keeps_structure ->
  UNet3D_init a = Ok self ->
  length (down_layers self) = length (Args.filters a) /\
  (forall i, 0 <= i < py_len (Args.filters a) ->
     exists stage block,
       py_getitem (down_layers self) i = Ok stage /\
       block_dict !! Args.block_type a = Some block /\
       encoder_stage_built (Args.pooling a) block (Args.filters a)
         (Args.isotropy a)
         (SharedKwargs (Args.pad_mode a) (Args.act_mode a) (Args.norm_mode a))
         i (stage_arch stage)) /\
  (exists stage0,
     py_getitem (down_layers self) 0 = Ok stage0 /\
     stage_downsampling (stage_arch stage0) = Some (Identity, Some (Int 1))).
Proof.
  intros Hinit H. apply UNet3D_init_built in H; [|done].
  split; [by apply built_lengths|].
  split; [intros i Hi; by apply built_down_layers|].
  pose proof (built_nonempty _ _ H) as Hlen.
  destruct (built_down_layers a self 0 H) as (stage & block & Hs & _ & Hst);
    [lia|].
  exists stage. split; [done|].
  destruct Hst as (iso & fp & fi & _ & _ & _ & ->).
  unfold stage_downsampling, _make_pooling_layer_arch, _get_stride. simpl.
  by rewrite andb_false_r, orb_true_r.
Qed.

(** C6: in every encoder stage [i >= 1] exactly one downsampling mechanism
    is at work: with [pooling=True] the stage begins with a [MaxPool3d]
    whose kernel size and stride are the downsampling factor and the
    convolution has stride 1; with [pooling=False] the stage begins with an
    identity layer and the stride of the convolution is the downsampling
    factor. Stage 0 has an identity layer and stride 1 either way. *)
Theorem one_downsampling_per_stage (a : Args.t) (self : UNet3D P) :
  model_init_keeps_structure ->
  UNet3D_init a = Ok self ->
  (forall i, 1 <= i < py_len (Args.filters a) ->
     exists stage iso_i,
       py_getitem (down_layers self) i = Ok stage /\
       py_getitem (Args.isotropy a) i = Ok iso_i /\
       stage_downsampling (stage_arch stage) =
         Some (if pooling self
               then (MaxPool3d (_get_downsample iso_i) (_get_downsample iso_i),
                     Some (Int 1))
               else (Identity, Some (_get_downsample iso_i)))) /\
  (exists stage0,
     py_getitem (down_layers self) 0 = Ok stage0 /\
     stage_downsampling (stage_arch stage0) = Some (Identity, Some (Int 1))).
Proof.
  intros Hinit H. apply UNet3D_init_built in H; [|done].
  assert (Hp : pooling self = Args.pooling a).
  { by destruct H as (_ & _ & ? & ? & _ & _ & ? & _). }
  split.
  - intros i Hi.
    destruct (built_down_layers a self i H) as (stage & block & Hs & _ & Hst);
      [lia|].
    destruct Hst as (iso & fp & fi & Hiso & _ & _ & Hsa).
    exists stage, iso. split; [done|]. split; [done|].
    rewrite Hsa, Hp.
    unfold stage_downsampling, _make_pooling_layer_arch, _get_stride.
    replace (Z.max 0 (i - 1) =? i) with false
      by (symmetry; apply Z.eqb_neq; lia).
    by destruct (Args.pooling a).
  - pose proof (built_nonempty _ _ H) as Hlen.
    destruct (built_down_layers a self 0 H) as (stage & block & Hs & _ & Hst);
      [lia|].
    exists stage. split; [done|].
    destruct Hst as (iso & fp & fi & _ & _ & _ & ->).
    unfold stage_downsampling, _make_pooling_layer_arch, _get_stride. simpl.
    by rewrite andb_false_r, orb_true_r.
Qed.

(** ** Programs on a model: what they leave alone *)

Lemma M_bind_run {A B} (m : M P A) (f : A -> M P B) self :
  (m ≫= f) self =
    let '(self', r) := m self in
    match r with
    | Ok a => f a self'
    | Raise e => (self', Raise e)
    end.
Proof. done. Qed.

Lemma keeps_ret {A} (a : A) : keeps_structure (mret a : M P A).
Proof. done. Qed.

Lemma keeps_attr {A} (f : UNet3D P -> A) : keeps_structure (attr f).
Proof. done. Qed.

Lemma keeps_lift {A} (r : res A) : keeps_structure (lift r : M P A).
Proof. done. Qed.

Lemma keeps_bind {A B} (m : M P A) (f : A -> M P B) :
  keeps_structure m -> (forall a, keeps_structure (f a)) ->
  keeps_structure (m ≫= f).
Proof.
  intros Hm Hf self. rewrite M_bind_run. specialize (Hm self).
  destruct (m self) as [s' [a|e]]; simpl in *; [|done].
  by rewrite Hf.
Qed.

Lemma keeps_for {A S} (xs : list A) (body : A -> S -> M P S) :
  (forall i s, keeps_structure (body i s)) ->
  forall s, keeps_structure (for_ xs body s).
Proof.
  intros Hbody. induction xs as [|x xs IH]; intros s; simpl.
  - apply keeps_ret.
  - apply keeps_bind; [apply Hbody | apply IH].
Qed.

Lemma call_layer_arch (l : layer P) (x : T) :
  layer_arch (call_layer l x).1 = layer_arch l.
Proof. unfold call_layer. by destruct (call_module _ _ _). Qed.

Lemma call_sequential_arch (ls : list (layer P)) (x : T) :
  stage_arch (call_sequential ls x).1 = stage_arch ls.
Proof.
  revert x. induction ls as [|l ls IH]; intros x; simpl; [done|].
  pose proof (call_layer_arch l x) as Hl.
  destruct (call_layer l x) as [l' [x'|e]]; simpl in Hl.
  - specialize (IH x'). destruct (call_sequential ls x') as [ls' r].
    simpl in *. unfold stage_arch in *. simpl. by rewrite Hl, IH.
  - unfold stage_arch. simpl. by rewrite Hl.
Qed.

(** Calling a member in place changes no description in the container. *)
Lemma call_item_keeps {X Y} (g : X -> Y) (call : X -> T -> X * res T)
    (ls : list X) i x :
  (forall m x, g (call m x).1 = g m) ->
  g <$> (call_item call ls i x).1 = g <$> ls.
Proof.
  intros Hcall. unfold call_item.
  destruct (py_index ls i) as [n|]; [|done].
  destruct (ls !! n) as [m|] eqn:Hm; [|done].
  specialize (Hcall m x). destruct (call m x) as [m' r]. simpl in *.
  rewrite list_fmap_insert, Hcall. apply list_insert_id.
  by rewrite list_lookup_fmap, Hm.
Qed.

Lemma keeps_call_conv_in x : keeps_structure (call_conv_in x).
Proof.
  intros self. unfold call_conv_in.
  pose proof (call_layer_arch (conv_in self) x) as Hl.
  destruct (call_layer (conv_in self) x) as [l r].
  unfold structure_of. simpl in *. by rewrite Hl.
Qed.

Lemma keeps_call_conv_out x : keeps_structure (call_conv_out x).
Proof.
  intros self. unfold call_conv_out.
  pose proof (call_layer_arch (conv_out self) x) as Hl.
  destruct (call_layer (conv_out self) x) as [l r].
  unfold structure_of. simpl in *. by rewrite Hl.
Qed.

Lemma keeps_call_down_layer i x : keeps_structure (call_down_layer i x).
Proof.
  intros self. unfold call_down_layer.
  pose proof (call_item_keeps stage_arch call_sequential (down_layers self)
                i x call_sequential_arch) as Hl.
  destruct (call_item call_sequential (down_layers self) i x) as [ls r].
  unfold structure_of. simpl in *. by rewrite Hl.
Qed.

Lemma keeps_call_up_layer i k x : keeps_structure (call_up_layer i k x).
Proof.
  intros self. unfold call_up_layer.
  pose proof (call_item_keeps stage_arch
                (fun ml => call_item call_layer ml k) (up_layers self) i x)
    as Hl.
  destruct (call_item _ (up_layers self) i x) as [ls r].
  unfold structure_of. simpl in *. rewrite Hl; [done|].
  intros ml y. apply call_item_keeps, call_layer_arch.
Qed.

Lemma keeps_upsample_add x y : keeps_structure (_upsample_add x y).
Proof.
  unfold _upsample_add. apply keeps_bind; [apply keeps_attr|].
  intros p. destruct y as [t|]; [|apply keeps_lift].
  apply keeps_bind; intros; apply keeps_lift.
Qed.

Lemma keeps_forward_down_body i s : keeps_structure (forward_down_body i s).
Proof.
  destruct s as [x down_x]. unfold forward_down_body.
  apply keeps_bind; [apply keeps_call_down_layer|]. intros x'.
  apply keeps_bind; [apply keeps_lift|]. intros d. apply keeps_ret.
Qed.

Lemma keeps_forward_up_body down_x j x :
  keeps_structure (forward_up_body down_x j x).
Proof.
  unfold forward_up_body. apply keeps_bind; [apply keeps_attr|]. intros d.
  apply keeps_bind; [apply keeps_call_up_layer|]. intros x1.
  apply keeps_bind; [apply keeps_lift|]. intros y.
  apply keeps_bind; [apply keeps_upsample_add|]. intros x2.
  apply keeps_call_up_layer.
Qed.

Lemma keeps_forward x : keeps_structure (forward x).
Proof.
  unfold forward.
  apply keeps_bind; [apply keeps_call_conv_in|]. intros x1.
  apply keeps_bind; [apply keeps_attr|]. intros d1.
  apply keeps_bind; [apply keeps_attr|]. intros d2.
  apply keeps_bind.
  { apply keeps_for. apply keeps_forward_down_body. }
  intros [x2 down_x].
  apply keeps_bind; [apply keeps_call_down_layer|]. intros x3.
  apply keeps_bind; [apply keeps_attr|]. intros d3.
  apply keeps_bind.
  { apply keeps_for. intros j y. apply keeps_forward_up_body. }
  intros x4.
  apply keeps_bind; [apply keeps_call_conv_out|]. intros x5.
  apply keeps_bind; [apply keeps_attr|]. intros o.
  apply keeps_bind; [apply keeps_lift|]. intros act. apply keeps_lift.
Qed.

(** ** C8: [forward] leaves the model as built *)

(** C8: calling [forward] leaves the structure of the model unchanged, on a
    constructed model as on any other: [depth], [pooling], [output_act], and
    the layers of [conv_in], [conv_out], [down_layers] and [up_layers], in
    number, kind, kernel size, stride and padding, are the same before and
    after, whether the call returns or raises; only the numeric state inside
    the layers may differ. *)
Theorem forward_keeps_structure (self : UNet3D P) (x : T) :
  structure_of (forward x self).1 = structure_of self.
Proof. apply keeps_forward. Qed.

(** ** Loops of [forward] *)

Lemma structure_same (s s' : UNet3D P) :
  structure_of s' = structure_of s ->
  depth s' = depth s /\ pooling s' = pooling s /\
  py_len (down_layers s') = py_len (down_layers s) /\
  py_len (up_layers s') = py_len (up_layers s).
Proof.
  intros H. repeat split.
  - apply (f_equal s_depth) in H. done.
  - apply (f_equal s_pooling) in H. done.
  - apply (f_equal s_down_layers), (f_equal length) in H. simpl in H.
    rewrite !length_fmap in H. unfold py_len. by rewrite H.
  - apply (f_equal s_up_layers), (f_equal length) in H. simpl in H.
    rewrite !length_fmap in H. unfold py_len. by rewrite H.
Qed.

Lemma for_app {A S} (xs ys : list A) (body : A -> S -> M P S) a s :
  for_ (xs ++ ys) body a s = (for_ xs body a ≫= for_ ys body) s.
Proof.
  revert a s. induction xs as [|x xs IH]; intros a s; simpl.
  - by rewrite M_bind_run.
  - rewrite !M_bind_run. destruct (body x a s) as [s' [a'|e]]; simpl; [|done].
    by rewrite IH, M_bind_run.
Qed.

Lemma for_fmap {A B S} (f : A -> B) (xs : list A) (body : B -> S -> M P S) a s :
  for_ (f <$> xs) body a s = for_ xs (fun i => body (f i)) a s.
Proof.
  revert a s. induction xs as [|x xs IH]; intros a s; simpl; [done|].
  rewrite !M_bind_run.
  destruct (body (f x) a s) as [s' [a'|e]]; simpl; [apply IH | done].
Qed.

(** Two loops agree when their bodies agree on the states met. *)
Lemma for_ext {A S} (I : UNet3D P -> Prop) (xs : list A)
    (b1 b2 : A -> S -> M P S) :
  (forall i a s, i ∈ xs -> I s -> b1 i a s = b2 i a s) ->
  (forall i a s, I s -> I (b1 i a s).1) ->
  forall a s, I s -> for_ xs b1 a s = for_ xs b2 a s.
Proof.
  intros Heq Hinv. induction xs as [|x xs IH]; intros a s Hs; simpl; [done|].
  rewrite !M_bind_run, <- Heq by (done || left).
  specialize (Hinv x a s Hs).
  destruct (b1 x a s) as [s' [a'|e]]; simpl in *; [|done].
  apply IH; [|done]. intros i a0 s0 Hi. apply Heq. by right.
Qed.

Lemma reverse_seqZ n :
  reverse (seqZ 0 n) = (fun j => n - 1 - j) <$> seqZ 0 n.
Proof.
  apply list_eq. intros i.
  destruct (decide (Z.of_nat i < n)) as [Hi|Hi].
  - rewrite reverse_lookup by (rewrite length_seqZ; lia).
    rewrite list_lookup_fmap, length_seqZ, !lookup_seqZ_lt by lia.
    simpl. f_equal. lia.
  - rewrite list_lookup_fmap, lookup_seqZ_ge by lia.
    apply lookup_ge_None. rewrite length_reverse, length_seqZ. lia.
Qed.

Lemma forward_down_body_run i (x : T) down_x s :
  forward_down_body i (x, down_x) s =
    let '(s1, r) := call_down_layer i x s in
    match r with
    | Ok x1 => (s1, (fun d => (x1, d)) <$> py_setitem down_x i (Some x1))
    | Raise e => (s1, Raise e)
    end.
Proof.
  unfold forward_down_body. rewrite M_bind_run.
  destruct (call_down_layer i x s) as [s1 [x1|e]]; [|done].
  rewrite M_bind_run. unfold lift.
  by destruct (py_setitem down_x i (Some x1)).
Qed.

Lemma encoder_stage_run i (x : T) outs s :
  encoder_stage i (x, outs) s =
    let '(s1, r) := call_down_layer i x s in
    (s1, (fun x1 => (x1, outs ++ [x1])) <$> r).
Proof.
  unfold encoder_stage. rewrite M_bind_run.
  by destruct (call_down_layer i x s) as [s1 [x1|e]].
Qed.

(** The first loop of [forward] keeps, at position [i] of [down_x], the
    output of encoder stage [i]: it is the loop over the encoder stages that
    collects their outputs. *)
Lemma forward_down_loop (n k : nat) (x : T) (outs : list T) s :
  length outs = k ->
  for_ (seqZ (Z.of_nat k) (Z.of_nat n)) forward_down_body
    (x, (Some <$> outs) ++ replicate n None) s
  = let '(s', r) :=
      for_ (seqZ (Z.of_nat k) (Z.of_nat n)) encoder_stage (x, outs) s in
    (s', (fun r : T * list T => (r.1, Some <$> r.2)) <$> r).
Proof.
  revert k x outs s. induction n as [|n IH]; intros k x outs s Hk.
  - rewrite seqZ_nil by lia. simpl. by rewrite app_nil_r.
  - rewrite seqZ_cons by lia.
    replace (Z.succ (Z.of_nat k)) with (Z.of_nat (S k)) by lia.
    replace (Z.pred (Z.of_nat (S n))) with (Z.of_nat n) by lia.
    cbn [for_]. rewrite !M_bind_run, forward_down_body_run, encoder_stage_run.
    destruct (call_down_layer (Z.of_nat k) x s) as [s1 [x1|e]]; simpl;
      [|done].
    unfold py_setitem.
    rewrite py_index_nonneg
      by (unfold py_len; rewrite length_app, length_fmap; simpl;
          rewrite length_replicate; lia).
    rewrite Nat2Z.id. simpl.
    replace (<[k:=Some x1]> ((Some <$> outs) ++ None :: replicate n None))
      with ((Some <$> (outs ++ [x1])) ++ replicate n (@None T)).
    + apply IH. rewrite length_app. simpl. lia.
    + rewrite insert_app_r_alt by (rewrite length_fmap; lia).
      rewrite length_fmap, Hk, Nat.sub_diag. simpl.
      by rewrite fmap_app, <- app_assoc.
Qed.

Lemma encoder_loop_length (xs : list Z) (x x' : T) (outs outs' : list T) s s' :
  for_ xs encoder_stage (x, outs) s = (s', Ok (x', outs')) ->
  length outs' = (length outs + length xs)%nat.
Proof.
  revert x outs s. induction xs as [|i xs IH]; intros x outs s H.
  - injection H as _ _ <-. simpl. lia.
  - cbn [for_] in H. rewrite M_bind_run, encoder_stage_run in H.
    destruct (call_down_layer i x s) as [s1 [x1|e]]; simpl in H; [|done].
    apply IH in H. rewrite length_app in H. simpl in *. lia.
Qed.

Lemma call_down_layer_last d (x : T) s :
  1 <= d -> py_len (down_layers s) = d ->
  call_down_layer (-1) x s = call_down_layer (d - 1) x s.
Proof.
  intros Hd Hlen. unfold call_down_layer, call_item.
  replace (py_index (down_layers s) (-1))
    with (py_index (down_layers s) (d - 1)); [done|].
  unfold py_index. rewrite Hlen. simpl.
  destruct (Z.ltb_spec (d - 1) 0); [lia|]. f_equal; lia.
Qed.

Lemma upsample_add_run (x e : T) s :
  _upsample_add x (Some e) s =
    (s, x' ← interpolate x (drop 2 (shape e)) "trilinear"
               (align_corners_of (pooling s));
        add x' e).
Proof.
  unfold _upsample_add. rewrite M_bind_run. unfold attr.
  rewrite M_bind_run. unfold lift.
  by destruct (interpolate _ _ _ _).
Qed.

(** A round of the second loop of [forward] is the decoder stage
    [depth - 2 - j], fed with the output of the encoder stage of that
    number. *)
Lemma forward_up_body_stage d (outs : list T) xl j (x : T) s :
  depth s = d -> 0 <= j < d - 1 -> length outs = Z.to_nat (d - 1) ->
  forward_up_body (Some <$> outs) j x s
  = decoder_stage (outs ++ [xl]) (d - 2 - j) x s.
Proof.
  intros Hd Hj Hlen. unfold forward_up_body, decoder_stage.
  rewrite M_bind_run. unfold attr at 1. rewrite Hd, !M_bind_run.
  destruct (call_up_layer (d - 2 - j) 0 x s) as [s1 [x1|e]]; [|done].
  destruct (lookup_lt_is_Some_2 outs (Z.to_nat (d - 2 - j))) as [t Ht];
    [lia|].
  rewrite M_bind_run. unfold lift at 1.
  replace (py_getitem (Some <$> outs) (d - 2 - j)) with (Ok (Some t)).
  - by rewrite lookup_app_l, Ht by lia.
  - symmetry. apply py_getitem_Ok; [lia|].
    by rewrite list_lookup_fmap, Ht.
Qed.

(** [forward] on a model of depth [d >= 1] with [d] encoder stages. *)
Lemma forward_composition_eq d (x : T) self :
  1 <= d -> depth self = d -> py_len (down_layers self) = d ->
  forward x self = forward_composition d x self.
Proof.
  intros Hd Hdepth Hlen. unfold forward, forward_composition.
  rewrite !M_bind_run.
  pose proof (keeps_call_conv_in x self) as K1.
  destruct (call_conv_in x self) as [s1 [x1|e]]; [|done]. simpl in K1.
  apply structure_same in K1 as (D1 & _ & L1 & _).
  rewrite M_bind_run. unfold attr at 1. rewrite M_bind_run. unfold attr at 1.
  rewrite D1, Hdepth, !M_bind_run.
  unfold py_range. rewrite Z.sub_0_r.
  pose proof (forward_down_loop (Z.to_nat (d - 1)) 0 x1 [] s1 eq_refl) as HL.
  change (Z.of_nat 0) with 0 in HL. simpl in HL.
  rewrite Z2Nat.id in HL by lia. rewrite HL. clear HL.
  replace (seqZ 0 d) with (seqZ 0 (d - 1) ++ [d - 1]).
  2: { replace d with ((d - 1) + 1) at 3 by lia.
       rewrite seqZ_app by lia. f_equal. }
  rewrite for_app, M_bind_run.
  assert (K2 : keeps_structure (for_ (seqZ 0 (d - 1)) encoder_stage (x1, []))).
  { apply keeps_for. intros i [y os]. unfold encoder_stage.
    apply keeps_bind; [apply keeps_call_down_layer|intros; apply keeps_ret]. }
  specialize (K2 s1).
  destruct (for_ (seqZ 0 (d - 1)) encoder_stage (x1, []) s1)
    as [s2 [[x2 outs]|e]] eqn:HN; [|done].
  apply encoder_loop_length in HN.
  rewrite length_seqZ in HN. simpl in HN, K2.
  apply structure_same in K2 as (D2 & _ & L2 & _).
  cbn [fmap res_fmap fst snd for_].
  rewrite !M_bind_run, encoder_stage_run.
  rewrite (call_down_layer_last d) by (lia || congruence).
  pose proof (keeps_call_down_layer (d - 1) x2 s2) as K3.
  destruct (call_down_layer (d - 1) x2 s2) as [s3 [x3|e]]; [|done].
  simpl in K3. apply structure_same in K3 as (D3 & _ & _ & _).
  cbn [fmap res_fmap mret M_ret]. rewrite !M_bind_run. unfold attr at 1.
  assert (Hd3 : depth s3 = d) by congruence. rewrite Hd3.
  rewrite !M_bind_run, Z.sub_0_r, reverse_seqZ, for_fmap.
  rewrite (for_ext (fun s => depth s = d) (seqZ 0 (d - 1))
             (forward_up_body (Some <$> outs))
             (fun j => decoder_stage (outs ++ [x3]) (d - 1 - 1 - j))); [done| | |done].
  - intros j y s Hj Hs. apply elem_of_seqZ in Hj.
    replace (d - 1 - 1 - j) with (d - 2 - j) by lia.
    apply forward_up_body_stage; [done|lia|lia].
  - intros j y s Hs.
    pose proof (keeps_forward_up_body (Some <$> outs) j y s) as K.
    apply structure_same in K as (D & _). congruence.
Qed.

(** ** C3: [forward] as a composition *)

(** C3: on a constructed model of depth [d = len(filters)], [forward(x)] is
    the composition, in this order, of [conv_in], the encoder stages
    [down_layers[0]] to [down_layers[d-1]] with the outputs of stages [0] to
    [d-2] kept, then for [i] from [d-2] down to [0] the decoder convolution
    [up_layers[i][0]], the upsample-and-add with the kept output of encoder
    stage [i] and the decoder block [up_layers[i][1]], then [conv_out] and
    the activation [output_act] names: same result or exception, and same
    model afterwards. *)
Theorem forward_is_composition (a : Args.t) (self : UNet3D P) (x : T) :
  model_init_keeps_structure ->
  UNet3D_init a = Ok self ->
  forward x self = forward_composition (py_len (Args.filters a)) x self.
Proof.
  intros Hinit H. apply UNet3D_init_built in H; [|done].
  pose proof (built_nonempty _ _ H) as Hd.
  apply built_lengths in H as (Hdown & _ & Hdepth).
  apply forward_composition_eq; [done|done|].
  unfold py_len. by rewrite Hdown.
Qed.

(** ** C5: the decoding path and its skip connections *)

(** C5: after construction [up_layers] holds exactly [len(filters) - 1]
    stages in order; stage [j-1], for [j] from 1 to [len(filters) - 1], is
    [conv3d_norm_act] from [filters[j]] to [filters[j-1]] channels followed
    by the block on [filters[j-1]] channels. In [forward] the first loop
    leaves in [down_x[i]] the output of encoder stage [i], and the round of
    the second loop for decoder stage [i] applies the decoder convolution,
    upsamples the result trilinearly to the spatial size of that encoder
    output, adds the encoder output to it, and applies the decoder block.
    So [forward] as a whole is: [conv_in]; the encoder stages in ascending
    order, their outputs kept in [outs]; for [i] from [d-2] down to [0] the
    decoder convolution [up_layers[i][0]], the trilinear interpolation of
    its result to the spatial size of [outs[i]], the addition of [outs[i]]
    to the interpolated tensor, and the decoder block [up_layers[i][1]];
    [conv_out]; the output activation. The encoder loop keeps one output
    per stage, so [outs[i]] is there for every decoder stage. *)
Theorem up_layers_built_and_skip_added (a : Args.t) (self : UNet3D P) :
  model_init_keeps_structure ->
  UNet3D_init a = Ok self ->
  let d := py_len (Args.filters a) in
  length (up_layers self) = (length (Args.filters a) - 1)%nat /\
  (forall j, 1 <= j < d ->
     exists stage block,
       py_getitem (up_layers self) (j - 1) = Ok stage /\
       block_dict !! Args.block_type a = Some block /\
       decoder_stage_built block (Args.filters a) (Args.isotropy a)
         (SharedKwargs (Args.pad_mode a) (Args.act_mode a) (Args.norm_mode a))
         j (stage_arch stage)) /\
  (forall (x : T) s,
     for_ (py_range 0 (d - 1)) forward_down_body
       (x, replicate (Z.to_nat (d - 1)) None) s
     = let '(s', r) := for_ (seqZ 0 (d - 1)) encoder_stage (x, []) s in
       (s', (fun r : T * list T => (r.1, Some <$> r.2)) <$> r)) /\
  (forall (outs : list T) (e x : T) j s,
     structure_of s = structure_of self ->
     0 <= j < d - 1 ->
     outs !! Z.to_nat (d - 2 - j) = Some e ->
     forward_up_body (Some <$> outs) j x s
     = (u ← call_up_layer (d - 2 - j) 0 x;
        v ← lift (x' ← interpolate u (drop 2 (shape e)) "trilinear"
                         (align_corners_of (Args.pooling a));
                  add x' e);
        call_up_layer (d - 2 - j) 1 v) s) /\
  (forall x : T,
     forward x self
     = (x ← call_conv_in x;
        '(x, outs) ← for_ (seqZ 0 d) encoder_stage (x, []);
        x ← for_ (reverse (seqZ 0 (d - 1)))
              (fun i x =>
                 u ← call_up_layer i 0 x;
                 v ← lift (match outs !! Z.to_nat i with
                           | Some e =>
                               x' ← interpolate u (drop 2 (shape e))
                                      "trilinear"
                                      (align_corners_of (Args.pooling a));
                               add x' e
                           | None => Raise AttributeError
                           end);
                 call_up_layer i 1 v) x;
        x ← call_conv_out x;
        self_output_act ← attr output_act;
        act ← lift (get_functional_act self_output_act);
        lift (act x)) self) /\
  (forall (x x' : T) (outs : list T) s s',
     for_ (seqZ 0 d) encoder_stage (x, []) s = (s', Ok (x', outs)) ->
     length outs = Z.to_nat d /\
     forall i, 0 <= i < d - 1 -> is_Some (outs !! Z.to_nat i)).
Proof.
  intros Hinit H d. apply UNet3D_init_built in H; [|done].
  pose proof (built_nonempty _ _ H) as Hd.
  pose proof (built_lengths _ _ H) as (Hdown & Hup & Hdepth).
  assert (Hp : pooling self = Args.pooling a).
  { by destruct H as (_ & _ & ? & ? & _ & _ & ? & _). }
  split; [done|]. split; [intros j Hj; by apply built_up_layers|].
  split; [|split; [|split]].
  - intros x s. unfold py_range. rewrite Z.sub_0_r.
    pose proof (forward_down_loop (Z.to_nat (d - 1)) 0 x [] s eq_refl) as HL.
    change (Z.of_nat 0) with 0 in HL. simpl in HL.
    rewrite Z2Nat.id in HL by (unfold d; lia). done.
  - intros outs e x j s Hs Hj He.
    apply structure_same in Hs as (Hds & Hps & _ & _).
    unfold forward_up_body. rewrite M_bind_run. unfold attr at 1.
    replace (depth s) with d by (unfold d, py_len; congruence).
    rewrite !M_bind_run.
    pose proof (keeps_call_up_layer (d - 2 - j) 0 x s) as K.
    destruct (call_up_layer (d - 2 - j) 0 x s) as [s1 [x1|err]]; [|done].
    simpl in K. apply structure_same in K as (_ & Hp1 & _ & _).
    rewrite !M_bind_run. unfold lift.
    replace (py_getitem (Some <$> outs) (d - 2 - j)) with (Ok (Some e)).
    + by rewrite M_bind_run, upsample_add_run, Hp1, Hps, Hp.
    + symmetry. apply py_getitem_Ok; [lia|].
      by rewrite list_lookup_fmap, He.
  - intros x.
    rewrite (forward_composition_eq d);
      [|done|done|by unfold d, py_len; rewrite Hdown].
    unfold forward_composition. rewrite !M_bind_run.
    pose proof (keeps_call_conv_in x self) as K1.
    destruct (call_conv_in x self) as [s1 [x1|e]]; [|done]. simpl in K1.
    apply structure_same in K1 as (_ & P1 & _ & _).
    rewrite !M_bind_run.
    assert (K2 : keeps_structure (for_ (seqZ 0 d) encoder_stage (x1, []))).
    { apply keeps_for. intros i [y os]. unfold encoder_stage.
      apply keeps_bind; [apply keeps_call_down_layer|intros; apply keeps_ret]. }
    specialize (K2 s1).
    destruct (for_ (seqZ 0 d) encoder_stage (x1, []) s1)
      as [s2 [[x2 outs]|e]]; [|done].
    simpl in K2. apply structure_same in K2 as (_ & P2 & _ & _).
    rewrite !M_bind_run.
    rewrite (for_ext (fun s => pooling s = Args.pooling a)
               (reverse (seqZ 0 (d - 1))) (decoder_stage outs)
               (fun i x =>
                  u ← call_up_layer i 0 x;
                  v ← lift (match outs !! Z.to_nat i with
                            | Some e =>
                                x' ← interpolate u (drop 2 (shape e))
                                       "trilinear"
                                       (align_corners_of (Args.pooling a));
                                add x' e
                            | None => Raise AttributeError
                            end);
                  call_up_layer i 1 v)); [done| | |congruence].
    + intros i y s _ Hs. unfold decoder_stage. rewrite !M_bind_run.
      pose proof (keeps_call_up_layer i 0 y s) as K.
      destruct (call_up_layer i 0 y s) as [s3 [u|e]]; [|done]. simpl in K.
      apply structure_same in K as (_ & P3 & _ & _).
      rewrite !M_bind_run. unfold lift.
      destruct (outs !! Z.to_nat i) as [t|].
      * by rewrite upsample_add_run, P3, Hs.
      * done.
    + intros i y s Hs.
      assert (K : keeps_structure (decoder_stage outs i y)).
      { unfold decoder_stage.
        apply keeps_bind; [apply keeps_call_up_layer|]. intros u.
        apply keeps_bind; [apply keeps_upsample_add|]. intros v.
        apply keeps_call_up_layer. }
      specialize (K s). apply structure_same in K as (_ & P3 & _ & _).
      congruence.
  - intros x x' outs s s' Hloop.
    apply encoder_loop_length in Hloop. rewrite length_seqZ in Hloop.
    simpl in Hloop. split; [done|].
    intros i Hi. apply lookup_lt_is_Some. lia.
Qed.

(** ** C9: how [_upsample_add] interpolates *)

(** C9: [_upsample_add] always interpolates trilinearly to the spatial size
    of the skip tensor, so the two tensors it adds agree on the spatial
    axes, with [align_corners] true exactly when [pooling] is false and
    false exactly when [pooling] is true. *)
Theorem upsample_add_interpolation (self : UNet3D P) (x y : T) :
  interpolate_to_size ->
  _upsample_add x (Some y) self =
    (self, x' ← interpolate x (drop 2 (shape y)) "trilinear"
                  (align_corners_of (pooling self));
           add x' y) /\
  (align_corners_of (pooling self) = true <-> pooling self = false) /\
  (align_corners_of (pooling self) = false <-> pooling self = true) /\
  (forall x', interpolate x (drop 2 (shape y)) "trilinear"
                (align_corners_of (pooling self)) = Ok x' ->
              drop 2 (shape x') = drop 2 (shape y)).
Proof.
  intros Hsize. split; [apply upsample_add_run|].
  split; [by destruct (pooling self)|].
  split; [by destruct (pooling self)|].
  intros x' Hx. by apply Hsize in Hx.
Qed.

(** ** C10, C1: the guards of [UNet3D.__init__] *)

(** C10: [UNet3D.__init__] raises [AssertionError] whenever [filters] and
    [isotropy] differ in length; when the lengths agree the assertion passes
    and construction goes on; no model is built without the equality. *)
Theorem UNet3D_init_asserts_equal_lengths (a : Args.t) :
  (length (Args.filters a) <> length (Args.isotropy a) ->
     UNet3D_init a = Raise AssertionError) /\
  (length (Args.filters a) = length (Args.isotropy a) ->
     py_assert (bool_decide (py_len (Args.filters a) = py_len (Args.isotropy a)))
       = Ok tt /\
     UNet3D_init a = UNet3D_init_body a) /\
  (forall self, UNet3D_init a = Ok self ->
     length (Args.filters a) = length (Args.isotropy a)).
Proof.
  unfold UNet3D_init, py_len. repeat split.
  - intros Hne. rewrite bool_decide_eq_false_2 by lia. done.
  - rewrite bool_decide_eq_true_2 by lia. done.
  - rewrite bool_decide_eq_true_2 by lia. done.
  - intros self H. case_bool_decide as Hlen; [lia|]. simpl in H. done.
Qed.

(** C1, at the inputs on which it fails: with [is_isotropic=True] and lists
    of equal length the constructor raises [TypeError], whatever the other
    arguments are: the comprehension iterates over [len(isotropy)]. *)
Theorem UNet3D_init_is_isotropic_raises (a : Args.t) :
  Args.is_isotropic a = true ->
  length (Args.filters a) = length (Args.isotropy a) ->
  UNet3D_init a = Raise TypeError.
Proof.
  intros Hiso Hlen. unfold UNet3D_init, py_len.
  rewrite bool_decide_eq_true_2 by lia. simpl.
  unfold UNet3D_init_body. rewrite Hiso. done.
Qed.

(** Without stages there is no [filters[0]] for the input layer. *)
Lemma UNet3D_init_no_stage_raises (a : Args.t) :
  Args.filters a = [] -> Args.isotropy a = [] ->
  Args.is_isotropic a = false ->
  is_Some (block_dict !! Args.block_type a) ->
  UNet3D_init a = Raise IndexError.
Proof.
  intros Hf Hi Hflag [block Hblock].
  unfold UNet3D_init, UNet3D_init_body, py_dict_getitem.
  rewrite Hf, Hi, Hflag, Hblock. done.
Qed.

(** Apart from [is_isotropic=True], the arguments of C1 do build a model,
    as far as the constructors of the layers and [model_init] return. *)
Lemma for_succeeds {A S} (xs : list A) (body : A -> S -> res S) s :
  (forall i s, i ∈ xs -> exists s', body i s = Ok s') ->
  exists s', for_ xs body s = Ok s'.
Proof.
  revert s. induction xs as [|x xs IH]; intros s Hbody; simpl; [by eexists|].
  destruct (Hbody x s) as [s1 ->]; [left|]. simpl.
  apply IH. intros i s0 Hi. apply Hbody. by right.
Qed.

Lemma UNet3D_init_succeeds (a : Args.t) :
  Args.is_isotropic a = false ->
  length (Args.filters a) = length (Args.isotropy a) ->
  Args.filters a <> [] ->
  is_Some (block_dict !! Args.block_type a) ->
  (forall ar, exists p, new_module ar = Ok p) ->
  (forall m, exists m', model_init m = Ok m') ->
  exists self, UNet3D_init a = Ok self.
Proof.
  intros Hflag Hlen Hne [block Hblock] Hnew Hinit.
  assert (Hmake : forall ar, exists l, make_layer ar = Ok l).
  { intros ar. destruct (Hnew ar) as [p Hp]. unfold make_layer.
    rewrite Hp. by eexists. }
  assert (Hd : 1 <= py_len (Args.filters a)).
  { unfold py_len. destruct (Args.filters a); simpl; [done|lia]. }
  assert (Hget : forall {A} (l : list A) i, 0 <= i < py_len l ->
            exists x, py_getitem l i = Ok x)
    by (intros; by apply py_getitem_in_range).
  assert (Hlen' : py_len (Args.isotropy a) = py_len (Args.filters a))
    by (unfold py_len; lia).
  unfold UNet3D_init, UNet3D_init_body.
  rewrite bool_decide_eq_true_2 by (unfold py_len; lia).
  rewrite Hflag. unfold py_assert, py_dict_getitem.
  rewrite Hblock, !res_bind_ret.
  destruct (Hget _ (Args.filters a) 0) as [f0 ->]; [lia|].
  cbn [_get_kernal_size]. rewrite res_bind_ret.
  unfold conv3d_norm_act.
  repeat layer_returns Hmake.
  match goal with
  | |- exists self, for_ ?xs ?body ?s ≫= _ = _ =>
      destruct (for_succeeds xs body s) as [downs ->]
  end.
  { intros i layers Hi. apply elem_of_seqZ in Hi. unfold encoder_body.
    destruct (Hget _ (Args.isotropy a) i) as [iso ->]; [lia|].
    rewrite res_bind_ret.
    destruct (_get_kernal_size iso false) as [k pd].
    unfold _make_pooling_layer, conv3d_norm_act, call_block.
    layer_returns Hmake.
    destruct (Hget _ (Args.filters a) (Z.max 0 (i - 1))) as [fp ->]; [lia|].
    rewrite res_bind_ret.
    destruct (Hget _ (Args.filters a) i) as [fi ->]; [lia|].
    rewrite res_bind_ret.
    repeat layer_returns Hmake. by eexists. }
  rewrite res_bind_ret.
  match goal with
  | |- exists self, for_ ?xs ?body ?s ≫= _ = _ =>
      destruct (for_succeeds xs body s) as [ups ->]
  end.
  { intros j layers Hj. apply elem_of_seqZ in Hj. unfold decoder_body.
    destruct (Hget _ (Args.isotropy a) j) as [iso ->]; [lia|].
    rewrite res_bind_ret.
    destruct (_get_kernal_size iso false) as [k pd].
    unfold conv3d_norm_act, call_block.
    destruct (Hget _ (Args.filters a) j) as [fj ->]; [lia|].
    rewrite res_bind_ret.
    destruct (Hget _ (Args.filters a) (j - 1)) as [fp ->]; [lia|].
    rewrite res_bind_ret.
    repeat layer_returns Hmake. by eexists. }
  rewrite res_bind_ret. apply Hinit.
Qed.

End Properties.

(** ** The model on the shape framework *)

Lemma Demo_model_init_keeps :
  @model_init_keeps_structure nat (list Z) Demo.framework.
Proof. intros m m' [= ->]. done. Qed.

Lemma Demo_interpolate_to_size :
  @interpolate_to_size nat (list Z) Demo.framework.
Proof.
  intros x x' size mode ac. simpl.
  case_bool_decide as Hlen; [|done]. destruct Hlen as [Hx Hs].
  intros [= <-]. rewrite drop_app_length'; [done|].
  rewrite length_take. lia.
Qed.

Lemma Demo_net_built : UNet3D_init Args.default = Ok Demo.net.
Proof. vm_compute. reflexivity. Qed.

Lemma Demo_net_pooling_built :
  UNet3D_init Demo.args_pooling = Ok Demo.net_pooling.
Proof. vm_compute. reflexivity. Qed.

(** On a volume the default model returns three channels at the size of the
    input, and the layers have counted their calls: [forward] does change
    the numeric state it is allowed to change. *)
Example forward_default_volume :
  (forward Demo.volume Demo.net).2 = Ok [1; 3; 9; 65; 65] /\
  (forward Demo.volume Demo.net).1 <> Demo.net.
Proof. split; [vm_compute; reflexivity|]. vm_compute. intros [=]. Qed.

(** With max-pooling an even-sized volume goes through as well. *)
Example forward_pooling_volume :
  (forward [1; 1; 8; 64; 64] Demo.net_pooling).2 = Ok [1; 3; 8; 64; 64].
Proof. vm_compute. reflexivity. Qed.

(** ** The theorems at work on the default model *)

Lemma UNet3D_init_is_isotropic_raises_witness :
  Args.is_isotropic Demo.args_isotropic = true /\
  length (Args.filters Demo.args_isotropic)
    = length (Args.isotropy Demo.args_isotropic) /\
  @UNet3D_init nat (list Z) Demo.framework Demo.args_isotropic
    = Raise TypeError.
Proof.
  split; [reflexivity|]. split; [reflexivity|].
  apply UNet3D_init_is_isotropic_raises; reflexivity.
Defined.

Lemma UNet3D_init_asserts_equal_lengths_witness :
  (length (Args.filters Demo.args_unequal)
     <> length (Args.isotropy Demo.args_unequal) /\
   @UNet3D_init nat (list Z) Demo.framework Demo.args_unequal
     = Raise AssertionError) /\
  (length (Args.filters Args.default) = length (Args.isotropy Args.default) /\
   @UNet3D_init nat (list Z) Demo.framework Args.default
     = UNet3D_init_body Args.default).
Proof.
  split.
  - assert (H : length (Args.filters Demo.args_unequal)
                  <> length (Args.isotropy Demo.args_unequal))
      by (simpl; lia).
    split; [exact H|].
    exact (proj1 (UNet3D_init_asserts_equal_lengths Demo.args_unequal) H).
  - split; [reflexivity|].
    exact (proj2 (proj1 (proj2
             (UNet3D_init_asserts_equal_lengths Args.default)) eq_refl)).
Defined.

Lemma forward_is_composition_witness :
  @model_init_keeps_structure nat (list Z) Demo.framework /\
  UNet3D_init Args.default = Ok Demo.net /\
  forward Demo.volume Demo.net = forward_composition 5 Demo.volume Demo.net.
Proof.
  split; [exact Demo_model_init_keeps|]. split; [exact Demo_net_built|].
  exact (forward_is_composition Args.default Demo.net Demo.volume
           Demo_model_init_keeps Demo_net_built).
Defined.

Lemma down_layers_built_witness :
  @model_init_keeps_structure nat (list Z) Demo.framework /\
  UNet3D_init Args.default = Ok Demo.net /\
  length (down_layers Demo.net) = 5%nat /\
  (forall i, 0 <= i < 5 ->
     exists stage block,
       py_getitem (down_layers Demo.net) i = Ok stage /\
       block_dict !! "residual" = Some block /\
       encoder_stage_built false block [28; 36; 48; 64; 80]
         [false; false; false; true; true]
         (SharedKwargs "replicate" "elu" "bn") i (stage_arch stage)) /\
  (exists stage0,
     py_getitem (down_layers Demo.net) 0 = Ok stage0 /\
     stage_downsampling (stage_arch stage0) = Some (Identity, Some (Int 1))).
Proof.
  split; [exact Demo_model_init_keeps|]. split; [exact Demo_net_built|].
  exact (down_layers_built Args.default Demo.net Demo_model_init_keeps
           Demo_net_built).
Defined.

Lemma one_downsampling_per_stage_witness :
  @model_init_keeps_structure nat (list Z) Demo.framework /\
  UNet3D_init Demo.args_pooling = Ok Demo.net_pooling /\
  (forall i, 1 <= i < 5 ->
     exists stage iso_i,
       py_getitem (down_layers Demo.net_pooling) i = Ok stage /\
       py_getitem [false; false; false; true; true] i = Ok iso_i /\
       stage_downsampling (stage_arch stage) =
         Some (MaxPool3d (_get_downsample iso_i) (_get_downsample iso_i),
               Some (Int 1))) /\
  (exists stage0,
     py_getitem (down_layers Demo.net_pooling) 0 = Ok stage0 /\
     stage_downsampling (stage_arch stage0) = Some (Identity, Some (Int 1))).
Proof.
  split; [exact Demo_model_init_keeps|].
  split; [exact Demo_net_pooling_built|].
  exact (one_downsampling_per_stage Demo.args_pooling Demo.net_pooling
           Demo_model_init_keeps Demo_net_pooling_built).
Defined.

Lemma up_layers_built_and_skip_added_witness :
  @model_init_keeps_structure nat (list Z) Demo.framework /\
  UNet3D_init Args.default = Ok Demo.net /\
  length (up_layers Demo.net) = 4%nat /\
  (forall j, 1 <= j < 5 ->
     exists stage block,
       py_getitem (up_layers Demo.net) (j - 1) = Ok stage /\
       block_dict !! "residual" = Some block /\
       decoder_stage_built block [28; 36; 48; 64; 80]
         [false; false; false; true; true]
         (SharedKwargs "replicate" "elu" "bn") j (stage_arch stage)) /\
  (forall (x : list Z) s,
     for_ (py_range 0 4) forward_down_body (x, replicate 4 None) s
     = let '(s', r) := for_ (seqZ 0 4) encoder_stage (x, []) s in
       (s', (fun r : list Z * list (list Z) => (r.1, Some <$> r.2)) <$> r)) /\
  (forall (outs : list (list Z)) (e x : list Z) j s,
     structure_of s = structure_of Demo.net ->
     0 <= j < 4 ->
     outs !! Z.to_nat (3 - j) = Some e ->
     forward_up_body (Some <$> outs) j x s
     = (u ← call_up_layer (3 - j) 0 x;
        v ← lift (x' ← interpolate u (drop 2 (shape e)) "trilinear" true;
                  add x' e);
        call_up_layer (3 - j) 1 v) s) /\
  (forall x : list Z,
     forward x Demo.net
     = (x ← call_conv_in x;
        '(x, outs) ← for_ (seqZ 0 5) encoder_stage (x, []);
        x ← for_ (reverse (seqZ 0 4))
              (fun i x =>
                 u ← call_up_layer i 0 x;
                 v ← lift (match outs !! Z.to_nat i with
                           | Some e =>
                               x' ← interpolate u (drop 2 (shape e))
                                      "trilinear" true;
                               add x' e
                           | None => Raise AttributeError
                           end);
                 call_up_layer i 1 v) x;
        x ← call_conv_out x;
        self_output_act ← attr output_act;
        act ← lift (get_functional_act self_output_act);
        lift (act x)) Demo.net) /\
  (forall (x x' : list Z) (outs : list (list Z)) s s',
     for_ (seqZ 0 5) encoder_stage (x, []) s = (s', Ok (x', outs)) ->
     length outs = 5%nat /\
     forall i, 0 <= i < 4 -> is_Some (outs !! Z.to_nat i)).
Proof.
  split; [exact Demo_model_init_keeps|]. split; [exact Demo_net_built|].
  exact (up_layers_built_and_skip_added Args.default Demo.net
           Demo_model_init_keeps Demo_net_built).
Defined.

Lemma upsample_add_interpolation_witness :
  @interpolate_to_size nat (list Z) Demo.framework /\
  _upsample_add [1; 28; 9; 33; 33] (Some [1; 28; 9; 65; 65]) Demo.net
    = (Demo.net, Ok [1; 28; 9; 65; 65]) /\
  (align_corners_of (pooling Demo.net) = true <-> pooling Demo.net = false) /\
  (align_corners_of (pooling Demo.net) = false <-> pooling Demo.net = true) /\
  (forall x', interpolate [1; 28; 9; 33; 33]
                (drop 2 (shape [1; 28; 9; 65; 65])) "trilinear"
                (align_corners_of (pooling Demo.net)) = Ok x' ->
              drop 2 (shape x') = drop 2 (shape [1; 28; 9; 65; 65])).
Proof.
  split; [exact Demo_interpolate_to_size|].
  exact (upsample_add_interpolation Demo.net [1; 28; 9; 33; 33]
           [1; 28; 9; 65; 65] Demo_interpolate_to_size).
Defined.

(** * Further properties of the constructor and of [forward] *)

Section Coverage.
Context {P T : Type} `{!Framework P T}.

(** ** What the constructor raises, and when it returns *)

Lemma block_dict_lookup (k : string) :
  block_dict !! k =
    if decide (k = "residual") then Some residual_block_3d
    else if decide (k = "residual_se") then Some residual_se_block_3d
    else None.
Proof.
  unfold block_dict. destruct (decide (k = "residual")) as [->|H1].
  - by rewrite lookup_insert_eq.
  - rewrite lookup_insert_ne by done.
    destruct (decide (k = "residual_se")) as [->|H2].
    + by rewrite lookup_insert_eq.
    + by rewrite lookup_insert_ne.
Qed.

(** X1: with lists of equal length and [is_isotropic=False], a [block_type]
    other than ['residual'] and ['residual_se'] makes the constructor raise
    [KeyError], whatever the other arguments are, before any layer is
    built. *)
Theorem UNet3D_init_unknown_block_type (a : Args.t) :
  length (Args.filters a) = length (Args.isotropy a) ->
  Args.is_isotropic a = false ->
  Args.block_type a <> "residual" ->
  Args.block_type a <> "residual_se" ->
  UNet3D_init a = Raise KeyError.
Proof.
  intros Hlen Hflag H1 H2. unfold UNet3D_init, py_len.
  rewrite bool_decide_eq_true_2 by lia.
  unfold UNet3D_init_body, py_dict_getitem.
  rewrite Hflag, block_dict_lookup.
  destruct (decide _) as [?|_]; [done|].
  destruct (decide _) as [?|_]; [done|]. done.
Qed.

(** X2: with empty [filters] and [isotropy], [is_isotropic=False] and a
    block type of [block_dict], the constructor raises [IndexError]: there
    is no [filters[0]] for the input layer. *)
Theorem UNet3D_init_without_stages (a : Args.t) :
  Args.filters a = [] -> Args.isotropy a = [] ->
  Args.is_isotropic a = false ->
  is_Some (block_dict !! Args.block_type a) ->
  UNet3D_init a = Raise IndexError.
Proof. apply UNet3D_init_no_stage_raises. Qed.

(** X3: where the constructors of the layers and [model_init] return, the
    constructor returns a model exactly for lists of equal length that are
    not empty, [is_isotropic=False] and a block type of [block_dict]. *)
Theorem UNet3D_init_returns_iff (a : Args.t) :
  (forall ar, exists p, new_module ar = Ok p) ->
  (forall m, exists m', model_init m = Ok m') ->
  (exists self, UNet3D_init a = Ok self) <->
  (length (Args.filters a) = length (Args.isotropy a) /\
   Args.is_isotropic a = false /\
   is_Some (block_dict !! Args.block_type a) /\
   Args.filters a <> []).
Proof.
  intros Hnew Hinit. split.
  - intros [self H]. unfold UNet3D_init in H.
    apply res_bind_Ok in H as ([] & Hassert & H).
    apply py_assert_Ok, bool_decide_eq_true_1 in Hassert.
    unfold UNet3D_init_body in H.
    destruct (Args.is_isotropic a) eqn:Hflag; [done|]. simpl in H.
    apply res_bind_Ok in H as (block & Hblock & H).
    apply res_bind_Ok in H as (f0 & Hf0 & _).
    unfold py_dict_getitem in Hblock.
    destruct (block_dict !! Args.block_type a) as [b|] eqn:Hb; [|done].
    apply py_getitem_Ok in Hf0; [|done].
    repeat split; [unfold py_len in Hassert; lia | by eexists |].
    intros Hnil. by rewrite Hnil in Hf0.
  - intros (Hlen & Hflag & Hblock & Hne).
    by apply UNet3D_init_succeeds.
Qed.

(** X4: a model the constructor returns has [pooling] and [output_act] as
    given and [depth = len(filters)]; its input layer goes from [in_channel]
    to [filters[0]] channels and its output layer from [filters[0]] to
    [out_channel] channels, the latter without activation and
    normalization; both have the kernel (1,5,5) with padding (0,2,2) and are
    given no stride, also when every stage is marked isotropic. *)
Theorem io_layers_built (a : Args.t) (self : UNet3D P) :
  model_init_keeps_structure ->
  UNet3D_init a = Ok self ->
  pooling self = Args.pooling a /\
  output_act self = Args.output_act a /\
  depth self = py_len (Args.filters a) /\
  exists f0,
    py_getitem (Args.filters a) 0 = Ok f0 /\
    layer_arch (conv_in self) =
      Conv3dNormAct (Args.in_channel a) f0 (1, 5, 5) None (0, 2, 2)
        (SharedKwargs (Args.pad_mode a) (Args.act_mode a) (Args.norm_mode a)) /\
    layer_arch (conv_out self) =
      Conv3dNormAct f0 (Args.out_channel a) (1, 5, 5) None (0, 2, 2)
        (SharedKwargs (Args.pad_mode a) "none" "none").
Proof.
  intros Hinit H. apply UNet3D_init_built in H; [|done].
  destruct H as (_ & _ & block & f0 & _ & Hf0 & Hp & Ho & Hd & Hin & Hout & _).
  repeat split; try done. exists f0. split; [|done].
  by apply py_getitem_Ok.
Qed.

(** X6: every kernel size [_get_kernal_size] returns is, on each axis, twice
    the padding it returns with it plus one: at stride 1 a convolution with
    them keeps the spatial size. *)
Theorem kernel_is_twice_padding_plus_one (is_isotropic io_layer : bool) :
  let '((kd, kh, kw), (pd, ph, pw)) := _get_kernal_size is_isotropic io_layer in
  kd = 2 * pd + 1 /\ kh = 2 * ph + 1 /\ kw = 2 * pw + 1.
Proof. destruct is_isotropic, io_layer; simpl; lia. Qed.

(** ** Running programs on a built model *)

Lemma built_structure (a : Args.t) (s s' : UNet3D P) :
  structure_of s = structure_of s' -> built a s' -> built a s.
Proof.
  intros Hs. unfold structure_of in Hs.
  injection Hs as Hp Ho Hd Hci Hco Hdl Hul.
  unfold built. by rewrite Hp, Ho, Hd, Hci, Hco, Hdl, Hul.
Qed.

Lemma returns_bind {A B} a (m : M P A) (f : A -> M P B) s
    (Q : A -> Prop) (R : B -> Prop) :
  returns_with a m s Q ->
  (forall s' y, built a s' -> Q y -> returns_with a (f y) s' R) ->
  returns_with a (m ≫= f) s R.
Proof.
  intros (s' & y & E & Hb & Hq) Hf. unfold returns_with.
  rewrite M_bind_run, E. by apply Hf.
Qed.

Lemma returns_op {A} a (m : M P A) s (Q : A -> Prop) :
  keeps_structure m -> built a s ->
  (exists y, (m s).2 = Ok y /\ Q y) ->
  returns_with a m s Q.
Proof.
  intros K Hb (y & E & Hq). exists (m s).1, y.
  split; [destruct (m s); simpl in *; congruence|].
  split; [|done]. by apply (built_structure a _ s).
Qed.

Lemma returns_weaken {A} a (m : M P A) s (Q R : A -> Prop) :
  returns_with a m s Q -> (forall y, Q y -> R y) -> returns_with a m s R.
Proof. intros (s' & y & E & Hb & Hq) H. exists s', y. auto. Qed.

Lemma returns_ret {A} a (y : A) s (Q : A -> Prop) :
  built a s -> Q y -> returns_with a (mret y : M P A) s Q.
Proof. intros Hb Hq. by exists s, y. Qed.

Lemma returns_attr {A} a (f : UNet3D P -> A) s (Q : A -> Prop) :
  built a s -> Q (f s) -> returns_with a (attr f) s Q.
Proof. intros Hb Hq. by exists s, (f s). Qed.

Lemma returns_lift {A} a (r : res A) y s (Q : A -> Prop) :
  built a s -> r = Ok y -> Q y -> returns_with a (lift r : M P A) s Q.
Proof. intros Hb -> Hq. by exists s, y. Qed.

(** A loop returns when each round does, and keeps what the rounds keep. *)
Lemma returns_for {A S} a (I : nat -> S -> Prop) (xs : list A)
    (body : A -> S -> M P S) :
  (forall k x acc s, xs !! k = Some x -> built a s -> I k acc ->
     returns_with a (body x acc) s (I (Datatypes.S k))) ->
  forall acc s, built a s -> I 0%nat acc ->
    returns_with a (for_ xs body acc) s (I (length xs)).
Proof.
  revert I. induction xs as [|x xs IH]; intros I Hbody acc s Hb H0; simpl.
  - by apply returns_ret.
  - apply (returns_bind a _ _ _ (I 1%nat)); [by apply (Hbody 0%nat)|].
    intros s' acc' Hb' H1.
    apply (IH (fun k => I (Datatypes.S k))); [|done|done].
    intros k y acc0 s0 Hk. by apply (Hbody (Datatypes.S k)).
Qed.

Lemma py_getitem_inv {X} (l : list X) i x :
  py_getitem l i = Ok x -> exists n, py_index l i = Some n /\ l !! n = Some x.
Proof.
  unfold py_getitem. destruct (py_index l i) as [n|]; [|done].
  destruct (l !! n) as [y|] eqn:E; [|done]. intros [= ->]. by exists n.
Qed.

Lemma call_item_result {X} (call : X -> T -> X * res T) ls i (x : T) m :
  py_getitem ls i = Ok m -> (call_item call ls i x).2 = (call m x).2.
Proof.
  intros (n & Hn & Hm)%py_getitem_inv. unfold call_item.
  rewrite Hn, Hm. by destruct (call m x).
Qed.

Lemma call_layer_result (l : layer P) (x : T) :
  (call_layer l x).2 = (call_module (layer_arch l) (layer_state l) x).2.
Proof. unfold call_layer. by destruct (call_module _ _ _). Qed.

Lemma call_sequential_result l ls (x : T) :
  (call_sequential (l :: ls) x).2 =
    match (call_layer l x).2 with
    | Ok x' => (call_sequential ls x').2
    | Raise e => Raise e
    end.
Proof.
  cbn [call_sequential]. destruct (call_layer l x) as [l' [x'|e]]; [|done].
  cbn [snd]. by destruct (call_sequential ls x').
Qed.

Lemma call_conv_in_result (x : T) s :
  (call_conv_in x s).2 = (call_layer (conv_in s) x).2.
Proof. unfold call_conv_in. by destruct (call_layer _ _). Qed.

Lemma call_conv_out_result (x : T) s :
  (call_conv_out x s).2 = (call_layer (conv_out s) x).2.
Proof. unfold call_conv_out. by destruct (call_layer _ _). Qed.

Lemma call_down_layer_result i (x : T) s stage :
  py_getitem (down_layers s) i = Ok stage ->
  (call_down_layer i x s).2 = (call_sequential stage x).2.
Proof.
  intros H. unfold call_down_layer.
  rewrite <- (call_item_result call_sequential _ _ x _ H).
  by destruct (call_item _ _ _ _).
Qed.

Lemma call_up_layer_result i k (x : T) s ml l :
  py_getitem (up_layers s) i = Ok ml -> py_getitem ml k = Ok l ->
  (call_up_layer i k x s).2 = (call_layer l x).2.
Proof.
  intros H Hl. unfold call_up_layer.
  rewrite <- (call_item_result call_layer _ _ x _ Hl).
  rewrite <- (call_item_result (fun ml => call_item call_layer ml k)
                _ _ x _ H).
  by destruct (call_item _ (up_layers s) _ _).
Qed.

(** ** Channels along [forward] *)

Section Channels.
Variable chan : T -> Z -> Prop.
Hypothesis Hlayers : layers_respect_channels chan.
Hypothesis Hinterpolate : interpolate_respects_channels chan.
Hypothesis Hadd : add_respects_channels chan.

Lemma call_layer_channels (l : layer P) (x : T) c :
  chan x c -> arch_accepts (layer_arch l) c ->
  exists y, (call_layer l x).2 = Ok y /\ chan y (arch_out (layer_arch l) c).
Proof. rewrite call_layer_result. apply Hlayers. Qed.

(** An encoder stage takes [filters[max(0,i-1)]] channels to [filters[i]]
    channels. *)
Lemma encoder_stage_channels self_pooling block filters isotropy kw i
    (stage : list (layer P)) (x : T) f_prev :
  encoder_stage_built self_pooling block filters isotropy kw i
    (stage_arch stage) ->
  py_getitem filters (Z.max 0 (i - 1)) = Ok f_prev -> chan x f_prev ->
  exists y f_i, py_getitem filters i = Ok f_i /\
    (call_sequential stage x).2 = Ok y /\ chan y f_i.
Proof.
  intros (iso & fp & fi & _ & Hfp & Hfi & Hst) Hprev Hx.
  assert (fp = f_prev) as -> by congruence.
  destruct stage as [|l0 [|l1 [|l2 [|]]]]; try done.
  unfold stage_arch in Hst. cbn [fmap list_fmap] in Hst.
  injection Hst as H0 H1 H2.
  destruct (call_layer_channels l0 x f_prev Hx) as (x0 & E0 & C0).
  { rewrite H0. unfold _make_pooling_layer_arch. by destruct (_ && _). }
  assert (arch_out (layer_arch l0) f_prev = f_prev) as Hout0.
  { rewrite H0. unfold _make_pooling_layer_arch. by destruct (_ && _). }
  rewrite Hout0 in C0.
  destruct (call_layer_channels l1 x0 f_prev C0) as (x1 & E1 & C1).
  { by rewrite H1. }
  rewrite H1 in C1. cbn [arch_out] in C1.
  destruct (call_layer_channels l2 x1 fi C1) as (x2 & E2 & C2).
  { by rewrite H2. }
  rewrite H2 in C2. cbn [arch_out] in C2.
  exists x2, fi. split; [done|]. split; [|done].
  rewrite call_sequential_result, E0, call_sequential_result, E1,
    call_sequential_result, E2. done.
Qed.

Lemma encoder_loop_channels (a : Args.t) (x : T) f0 s :
  built a s ->
  py_getitem (Args.filters a) 0 = Ok f0 -> chan x f0 ->
  returns_with a
    (for_ (seqZ 0 (py_len (Args.filters a))) encoder_stage (x, [])) s
    (fun r => (exists c, py_getitem (Args.filters a)
                           (py_len (Args.filters a) - 1) = Ok c /\
                         chan r.1 c) /\
              Forall2 chan r.2 (Args.filters a)).
Proof.
  intros Hb Hf0 Hx.
  pose proof (built_nonempty _ _ Hb) as Hd.
  eapply returns_weaken.
  1: apply (returns_for a
    (fun k r => (exists c, py_getitem (Args.filters a)
                             (Z.max 0 (Z.of_nat k - 1)) = Ok c /\
                           chan r.1 c) /\
                Forall2 chan r.2 (take k (Args.filters a)))
    (seqZ 0 (py_len (Args.filters a))) encoder_stage); [|done|].
  3: { intros r. rewrite length_seqZ. unfold py_len.
       rewrite Nat2Z.id, take_ge by done.
       replace (Z.max 0 (Z.of_nat (length (Args.filters a)) - 1))
         with (Z.of_nat (length (Args.filters a)) - 1)
         by (unfold py_len in *; lia).
       done. }
  - intros k i [y outs] s0 Hk Hb0 [(c & Hc & Hy) Houts].
    apply lookup_seqZ in Hk as [-> Hk]. simpl in Hy, Houts.
    unfold encoder_stage.
    destruct (built_down_layers a s0 (0 + Z.of_nat k) Hb0)
      as (stage & block & Hstage & _ & Hbuilt); [lia|].
    replace (0 + Z.of_nat k) with (Z.of_nat k) in * by lia.
    destruct (encoder_stage_channels _ _ _ _ _ _ stage y c Hbuilt Hc Hy)
      as (y' & fi & Hfi & E & Hy').
    apply (returns_bind a _ _ _ (fun y' => chan y' fi)).
    + apply returns_op; [apply keeps_call_down_layer|done|].
      exists y'. by rewrite (call_down_layer_result _ _ _ _ Hstage).
    + intros s1 y1 Hb1 Hy1. apply returns_ret; [done|]. simpl. split.
      * exists fi. split; [|done].
        replace (Z.max 0 (Z.of_nat (Datatypes.S k) - 1)) with (Z.of_nat k)
          by lia.
        done.
      * apply py_getitem_Ok in Hfi; [|lia]. rewrite Nat2Z.id in Hfi.
        rewrite (take_S_r _ _ _ Hfi).
        apply Forall2_app; [done|]. by constructor.
  - simpl. split; [|constructor]. exists f0. by split.
Qed.

(** A decoder stage takes [filters[i+1]] channels to [filters[i]] channels,
    the channels of the encoder output it adds. *)
Lemma decoder_stage_channels (a : Args.t) (outs : list T) i (x : T) f_j s :
  built a s ->
  0 <= i < py_len (Args.filters a) - 1 ->
  Forall2 chan outs (Args.filters a) ->
  py_getitem (Args.filters a) (i + 1) = Ok f_j -> chan x f_j ->
  returns_with a (decoder_stage outs i x) s
    (fun y => exists f_i, py_getitem (Args.filters a) i = Ok f_i /\ chan y f_i).
Proof.
  intros Hb Hi Houts Hfj Hx. unfold decoder_stage.
  assert (Hstage : forall s0, built a s0 ->
            exists (l0 l1 : layer P) f_i blk kw k pd,
              py_getitem (up_layers s0) i = Ok [l0; l1] /\
              py_getitem (Args.filters a) i = Ok f_i /\
              layer_arch l0 = Conv3dNormAct f_j f_i k None pd kw /\
              layer_arch l1 = Block blk f_i f_i kw).
  { intros s0 Hb0.
    destruct (built_up_layers a s0 (i + 1) Hb0)
      as (stage & block & Hst & _ & (iso & fj & fp & _ & Hj & Hp & Harch));
      [lia|].
    replace (i + 1 - 1) with i in * by lia.
    assert (fj = f_j) as -> by congruence.
    destruct stage as [|l0 [|l1 [|]]]; try done.
    unfold stage_arch in Harch. cbn [fmap list_fmap] in Harch.
    injection Harch as H0 H1. by eexists l0, l1, fp, _, _, _, _. }
  destruct (Hstage s Hb) as (l0 & l1 & f_i & blk & kw & k & pd & Hup & Hfi & H0 & _).
  apply (returns_bind a _ _ _ (fun u => chan u f_i)).
  { apply returns_op; [apply keeps_call_up_layer|done|].
    destruct (call_layer_channels l0 x f_j Hx) as (u & E & Hu);
      [by rewrite H0|].
    rewrite H0 in Hu. exists u.
    by rewrite (call_up_layer_result i 0 x s [l0; l1] l0 Hup eq_refl). }
  clear l0 l1 blk kw k pd Hup H0. intros s1 u Hb1 Hu.
  assert (Hlook : Args.filters a !! Z.to_nat i = Some f_i)
    by (apply py_getitem_Ok in Hfi; [done|lia]).
  destruct (Forall2_lookup_r _ _ _ _ _ Houts Hlook) as (e & He & Hce).
  apply (returns_bind a _ _ _ (fun v => chan v f_i)).
  { rewrite He. unfold returns_with. rewrite upsample_add_run.
    destruct (Hinterpolate u f_i (drop 2 (shape e)) "trilinear"
                (align_corners_of (pooling s1)) Hu) as (v & Ev & Hv).
    destruct (Hadd v e f_i Hv Hce) as (z & Ez & Hz).
    exists s1, z. rewrite Ev. simpl. by rewrite Ez. }
  intros s2 z Hb2 Hz.
  destruct (Hstage s2 Hb2)
    as (l0 & l1 & f_i' & blk & kw & k & pd & Hup & Hfi' & _ & H1).
  assert (f_i' = f_i) as -> by congruence.
  apply returns_op; [apply keeps_call_up_layer|done|].
  destruct (call_layer_channels l1 z f_i Hz) as (w & E & Hw);
    [by rewrite H1|].
  rewrite H1 in Hw. exists w.
  rewrite (call_up_layer_result i 1 z s2 [l0; l1] l1 Hup eq_refl).
  split; [done|]. by exists f_i.
Qed.

Lemma decoder_loop_channels (a : Args.t) (outs : list T) (x : T) c s :
  built a s ->
  Forall2 chan outs (Args.filters a) ->
  py_getitem (Args.filters a) (py_len (Args.filters a) - 1) = Ok c ->
  chan x c ->
  returns_with a
    (for_ (reverse (seqZ 0 (py_len (Args.filters a) - 1)))
       (decoder_stage outs) x) s
    (fun y => exists f0, py_getitem (Args.filters a) 0 = Ok f0 /\ chan y f0).
Proof.
  intros Hb Houts Hc Hx.
  pose proof (built_nonempty _ _ Hb) as Hd.
  set (d := py_len (Args.filters a)) in *.
  eapply returns_weaken.
  1: apply (returns_for a
    (fun k y => exists c, py_getitem (Args.filters a) (d - 1 - Z.of_nat k)
                            = Ok c /\ chan y c)
    (reverse (seqZ 0 (d - 1))) (decoder_stage outs)); [|done|].
  3: { intros y. rewrite length_reverse, length_seqZ.
       by replace (d - 1 - Z.of_nat (Z.to_nat (d - 1))) with 0 by lia. }
  - intros k i y s0 Hk Hb0 (c0 & Hc0 & Hy).
    rewrite reverse_seqZ, list_lookup_fmap in Hk.
    apply fmap_Some in Hk as (j & Hj & ->).
    apply lookup_seqZ in Hj as [-> Hj].
    replace (d - 1 - 1 - (0 + Z.of_nat k)) with (d - 2 - Z.of_nat k) by lia.
    replace (d - 1 - Z.of_nat (Datatypes.S k)) with (d - 2 - Z.of_nat k)
      by lia.
    apply (decoder_stage_channels a outs _ y c0 s0); try done; [lia|].
    by replace (d - 2 - Z.of_nat k + 1) with (d - 1 - Z.of_nat k) by lia.
  - exists c. split; [|done]. by replace (d - 1 - Z.of_nat 0) with (d - 1) by lia.
Qed.

End Channels.

(** X5: on a model the constructor returns, the channels line up along
    [forward]: where every layer given a tensor with the channels it takes
    returns one with the channels it gives, and interpolation, addition and
    the output activation keep the channels, [forward] on a tensor of
    [in_channel] channels returns a tensor of [out_channel] channels. In
    particular no subscript of [forward] is out of range, every entry of
    [down_x] it reads is a tensor, and each skip addition adds tensors of
    the same number of channels. *)
Theorem forward_respects_channels (a : Args.t) (self : UNet3D P)
    (chan : T -> Z -> Prop) (x : T) :
  model_init_keeps_structure ->
  UNet3D_init a = Ok self ->
  layers_respect_channels chan ->
  interpolate_respects_channels chan ->
  add_respects_channels chan ->
  act_respects_channels chan (Args.output_act a) ->
  chan x (Args.in_channel a) ->
  exists y, (forward x self).2 = Ok y /\ chan y (Args.out_channel a).
Proof.
  intros Hinit H Hlayers Hinterpolate Hadd (act & Hact & Hact') Hx.
  apply UNet3D_init_built in H as Hb; [|done].
  pose proof (built_nonempty _ _ Hb) as Hd.
  pose proof (built_lengths _ _ Hb) as (Hdown & _ & Hdepth).
  rewrite (forward_composition_eq (py_len (Args.filters a)));
    [|done|done|by unfold py_len; rewrite Hdown].
  assert (Hio : forall s : UNet3D P, built a s ->
            exists f0 k1 p1 kw1 k2 p2 kw2,
            py_getitem (Args.filters a) 0 = Ok f0 /\
            layer_arch (conv_in s) =
              Conv3dNormAct (Args.in_channel a) f0 k1 None p1 kw1 /\
            layer_arch (conv_out s) =
              Conv3dNormAct f0 (Args.out_channel a) k2 None p2 kw2 /\
            output_act s = Args.output_act a).
  { intros s (_ & _ & block & f0 & _ & Hf0 & _ & Ho & _ & Hin & Hout & _).
    exists f0. do 6 eexists. split; [by apply py_getitem_Ok|]. done. }
  cut (returns_with a (forward_composition (py_len (Args.filters a)) x) self
         (fun y => chan y (Args.out_channel a))).
  { intros (s' & y & E & _ & Hy). exists y. by rewrite E. }
  unfold forward_composition.
  destruct (Hio self Hb) as (f0 & k1 & p1 & kw1 & _ & _ & _ & Hf0 & Hin & _).
  apply (returns_bind a _ _ _ (fun y => chan y f0)).
  { apply returns_op; [apply keeps_call_conv_in|done|].
    destruct (call_layer_channels chan Hlayers (conv_in self) x
                (Args.in_channel a) Hx) as (y & E & Hy); [by rewrite Hin|].
    rewrite Hin in Hy. exists y. by rewrite call_conv_in_result. }
  intros s1 x1 Hb1 Hx1.
  eapply returns_bind.
  { by apply (encoder_loop_channels chan Hlayers a x1 f0 s1). }
  intros s2 [x2 outs] Hb2 [(c & Hc & Hx2) Houts]. simpl in Hx2, Houts.
  eapply returns_bind.
  { by apply (decoder_loop_channels chan Hlayers Hinterpolate Hadd a outs x2 c). }
  intros s3 x3 Hb3 (f0' & Hf0' & Hx3). simpl in Hx3.
  assert (f0' = f0) as -> by congruence.
  destruct (Hio s3 Hb3)
    as (f0' & _ & _ & _ & k2 & p2 & kw2 & Hf0'' & _ & Hout & _).
  assert (f0' = f0) as -> by congruence.
  apply (returns_bind a _ _ _ (fun y => chan y (Args.out_channel a))).
  { apply returns_op; [apply keeps_call_conv_out|done|].
    destruct (call_layer_channels chan Hlayers (conv_out s3) x3 f0 Hx3)
      as (y & E & Hy); [by rewrite Hout|].
    rewrite Hout in Hy. exists y. by rewrite call_conv_out_result. }
  intros s4 x4 Hb4 Hx4.
  destruct (Hio s4 Hb4) as (_ & _ & _ & _ & _ & _ & _ & _ & _ & _ & Ho).
  apply (returns_bind a _ _ _ (fun o => o = Args.output_act a)).
  { by apply returns_attr. }
  intros s5 o Hb5 ->.
  apply (returns_bind a _ _ _ (fun f => f = act)).
  { by apply (returns_lift a _ act). }
  intros s6 f Hb6 ->.
  destruct (Hact' x4 _ Hx4) as (y & Ey & Hy).
  by apply (returns_lift a _ y).
Qed.

(** ** A single stage, and [forward] called again *)

(** X7: with a single stage the constructor builds no decoder stage, and
    [forward] is the input layer, the one encoder stage, the output layer
    and the output activation: no upsampling and no addition takes place. *)
Theorem forward_single_stage (a : Args.t) (self : UNet3D P) (x : T) :
  model_init_keeps_structure ->
  UNet3D_init a = Ok self ->
  length (Args.filters a) = 1%nat ->
  up_layers self = [] /\
  forward x self =
    (x ← call_conv_in x;
     x ← call_down_layer 0 x;
     x ← call_conv_out x;
     self_output_act ← attr output_act;
     act ← lift (get_functional_act self_output_act);
     lift (act x)) self.
Proof.
  intros Hinit H Hone. apply UNet3D_init_built in H; [|done].
  pose proof (built_lengths _ _ H) as (Hdown & Hup & Hdepth).
  rewrite Hone in Hdown, Hup, Hdepth. split.
  - by destruct (up_layers self).
  - rewrite (forward_composition_eq 1);
      [|done|done|by unfold py_len; rewrite Hdown].
    unfold forward_composition.
    replace (seqZ 0 1) with [0] by reflexivity.
    replace (reverse (seqZ 0 (1 - 1))) with (@nil Z) by reflexivity.
    rewrite !M_bind_run.
    destruct (call_conv_in x self) as [s1 [x1|e]]; [|done].
    cbn [for_]. rewrite !M_bind_run, encoder_stage_run.
    by destruct (call_down_layer 0 x1 s1) as [s2 [x2|e]].
Qed.

Lemma after_forwards_structure (xs : list T) (self : UNet3D P) :
  structure_of (after_forwards xs self) = structure_of self.
Proof.
  revert self. induction xs as [|x xs IH]; intros self; [done|].
  unfold after_forwards. simpl. fold (after_forwards xs (forward x self).1).
  rewrite IH. apply keeps_forward.
Qed.

(** X8: [forward] can be called again and again: after any number of calls
    on a model the constructor returned, whatever they returned or raised,
    the structure is the one built, and the next [forward] is the same
    composition of the same layers. *)
Theorem forward_again (a : Args.t) (self : UNet3D P) (xs : list T) (x : T) :
  model_init_keeps_structure ->
  UNet3D_init a = Ok self ->
  structure_of (after_forwards xs self) = structure_of self /\
  forward x (after_forwards xs self)
    = forward_composition (py_len (Args.filters a)) x (after_forwards xs self).
Proof.
  intros Hinit H. apply UNet3D_init_built in H; [|done].
  pose proof (after_forwards_structure xs self) as Hs.
  split; [done|].
  apply (built_structure a) in Hs; [|done].
  pose proof (built_nonempty _ _ Hs) as Hd.
  pose proof (built_lengths _ _ Hs) as (Hdown & _ & Hdepth).
  apply forward_composition_eq; [done|done|].
  unfold py_len. by rewrite Hdown.
Qed.

End Coverage.

(** ** The further properties on the channel framework *)

Lemma Channels_model_init_keeps :
  @model_init_keeps_structure unit Z Channels.framework.
Proof. intros m m' [= ->]. done. Qed.

Lemma Channels_new_module_returns :
  forall ar, exists p : unit, new_module ar = Ok p.
Proof. intros ar. by exists tt. Qed.

Lemma Channels_model_init_returns :
  forall m : UNet3D unit, exists m', model_init m = Ok m'.
Proof. intros m. by exists m. Qed.

Lemma Channels_layers_respect :
  @layers_respect_channels unit Z Channels.framework Channels.chan.
Proof.
  intros ar p x c -> Hacc. unfold arch_accepts in Hacc. simpl.
  unfold Channels.run, Channels.chan.
  destruct (arch_in ar) as [i|]; [|by eexists].
  rewrite bool_decide_eq_true_2 by done. by eexists.
Qed.

Lemma Channels_interpolate_respects :
  @interpolate_respects_channels unit Z Channels.framework Channels.chan.
Proof. intros x c size mode ac ->. by exists c. Qed.

Lemma Channels_add_respects :
  @add_respects_channels unit Z Channels.framework Channels.chan.
Proof.
  intros x y c -> ->. exists c. simpl.
  by rewrite bool_decide_eq_true_2.
Qed.

Lemma Channels_act_respects name :
  @act_respects_channels unit Z Channels.framework Channels.chan name.
Proof.
  exists (fun c => Ok c). split; [done|]. intros x c ->. by exists c.
Qed.

Lemma Channels_net_built : UNet3D_init Channels.args = Ok Channels.net.
Proof. vm_compute. reflexivity. Qed.

Lemma Channels_net_one_built :
  UNet3D_init Channels.args_one = Ok Channels.net_one.
Proof. vm_compute. reflexivity. Qed.

Lemma UNet3D_init_unknown_block_type_witness :
  length (Args.filters Channels.args_plain)
    = length (Args.isotropy Channels.args_plain) /\
  Args.is_isotropic Channels.args_plain = false /\
  Args.block_type Channels.args_plain <> "residual" /\
  Args.block_type Channels.args_plain <> "residual_se" /\
  @UNet3D_init unit Z Channels.framework Channels.args_plain = Raise KeyError.
Proof.
  assert (H1 : Args.block_type Channels.args_plain <> "residual")
    by discriminate.
  assert (H2 : Args.block_type Channels.args_plain <> "residual_se")
    by discriminate.
  split; [reflexivity|]. split; [reflexivity|].
  split; [exact H1|]. split; [exact H2|].
  exact (UNet3D_init_unknown_block_type Channels.args_plain eq_refl eq_refl
           H1 H2).
Defined.

Lemma UNet3D_init_without_stages_witness :
  Args.filters Channels.args_none = [] /\
  Args.isotropy Channels.args_none = [] /\
  Args.is_isotropic Channels.args_none = false /\
  is_Some (block_dict !! Args.block_type Channels.args_none) /\
  @UNet3D_init unit Z Channels.framework Channels.args_none
    = Raise IndexError.
Proof.
  assert (Hb : is_Some (block_dict !! Args.block_type Channels.args_none))
    by (exists residual_block_3d; vm_compute; reflexivity).
  split; [reflexivity|]. split; [reflexivity|]. split; [reflexivity|].
  split; [exact Hb|].
  exact (UNet3D_init_without_stages Channels.args_none eq_refl eq_refl
           eq_refl Hb).
Defined.

Lemma UNet3D_init_returns_iff_witness :
  (forall ar, exists p : unit, new_module ar = Ok p) /\
  (forall m : UNet3D unit, exists m', model_init m = Ok m') /\
  ((exists self, @UNet3D_init unit Z Channels.framework Channels.args
                   = Ok self) <->
   (length (Args.filters Channels.args)
      = length (Args.isotropy Channels.args) /\
    Args.is_isotropic Channels.args = false /\
    is_Some (block_dict !! Args.block_type Channels.args) /\
    Args.filters Channels.args <> [])).
Proof.
  split; [exact Channels_new_module_returns|].
  split; [exact Channels_model_init_returns|].
  exact (UNet3D_init_returns_iff Channels.args Channels_new_module_returns
           Channels_model_init_returns).
Defined.

Lemma io_layers_built_witness :
  @model_init_keeps_structure unit Z Channels.framework /\
  UNet3D_init Channels.args = Ok Channels.net /\
  pooling Channels.net = true /\
  output_act Channels.net = "softmax" /\
  depth Channels.net = 3 /\
  exists f0,
    py_getitem [8; 16; 32] 0 = Ok f0 /\
    layer_arch (conv_in Channels.net) =
      Conv3dNormAct 2 f0 (1, 5, 5) None (0, 2, 2)
        (SharedKwargs "zeros" "relu" "gn") /\
    layer_arch (conv_out Channels.net) =
      Conv3dNormAct f0 5 (1, 5, 5) None (0, 2, 2)
        (SharedKwargs "zeros" "none" "none").
Proof.
  split; [exact Channels_model_init_keeps|].
  split; [exact Channels_net_built|].
  exact (io_layers_built Channels.args Channels.net Channels_model_init_keeps
           Channels_net_built).
Defined.

Lemma forward_respects_channels_witness :
  @model_init_keeps_structure unit Z Channels.framework /\
  UNet3D_init Channels.args = Ok Channels.net /\
  @layers_respect_channels unit Z Channels.framework Channels.chan /\
  @interpolate_respects_channels unit Z Channels.framework Channels.chan /\
  @add_respects_channels unit Z Channels.framework Channels.chan /\
  @act_respects_channels unit Z Channels.framework Channels.chan "softmax" /\
  Channels.chan 2 2 /\
  exists y, (forward 2 Channels.net).2 = Ok y /\ Channels.chan y 5.
Proof.
  split; [exact Channels_model_init_keeps|].
  split; [exact Channels_net_built|].
  split; [exact Channels_layers_respect|].
  split; [exact Channels_interpolate_respects|].
  split; [exact Channels_add_respects|].
  split; [exact (Channels_act_respects "softmax")|].
  split; [reflexivity|].
  exact (forward_respects_channels Channels.args Channels.net Channels.chan 2
           Channels_model_init_keeps Channels_net_built
           Channels_layers_respect Channels_interpolate_respects
           Channels_add_respects (Channels_act_respects "softmax") eq_refl).
Defined.

Lemma forward_single_stage_witness :
  @model_init_keeps_structure unit Z Channels.framework /\
  UNet3D_init Channels.args_one = Ok Channels.net_one /\
  length (Args.filters Channels.args_one) = 1%nat /\
  up_layers Channels.net_one = [] /\
  forward 2 Channels.net_one =
    (x ← call_conv_in 2;
     x ← call_down_layer 0 x;
     x ← call_conv_out x;
     self_output_act ← attr output_act;
     act ← lift (get_functional_act self_output_act);
     lift (act x)) Channels.net_one.
Proof.
  split; [exact Channels_model_init_keeps|].
  split; [exact Channels_net_one_built|].
  split; [reflexivity|].
  exact (forward_single_stage Channels.args_one Channels.net_one 2
           Channels_model_init_keeps Channels_net_one_built eq_refl).
Defined.

Lemma forward_again_witness :
  @model_init_keeps_structure nat (list Z) Demo.framework /\
  UNet3D_init Args.default = Ok Demo.net /\
  structure_of (after_forwards [Demo.volume; [1; 2; 3]] Demo.net)
    = structure_of Demo.net /\
  forward Demo.volume (after_forwards [Demo.volume; [1; 2; 3]] Demo.net)
    = forward_composition 5 Demo.volume
        (after_forwards [Demo.volume; [1; 2; 3]] Demo.net).
Proof.
  split; [exact Demo_model_init_keeps|]. split; [exact Demo_net_built|].
  exact (forward_again Args.default Demo.net [Demo.volume; [1; 2; 3]]
           Demo.volume Demo_model_init_keeps Demo_net_built).
Defined.

(** The channel framework does raise where channels do not fit: the model
    built for two input channels rejects a tensor of three. *)
Example forward_wrong_channels :
  (forward 3 Channels.net).2 = Raise RuntimeError.
Proof. vm_compute. reflexivity. Qed.
